(** * pbmoney: units/nanos money arithmetic (money.go)

    A shallow embedding of the Go package [pbmoney] and the properties of
    its operations.  A [*pb.Money] is modelled by the record it points to;
    the protobuf getters ([GetUnits], [GetNanos], [GetCurrencyCode]) are the
    record projections (on a nil pointer they read the fields of
    [emptyMoney]).  Go's fixed-width integers are modelled as [Z] with the
    two's-complement wrap-around written out at every operation; a
    run-time panic is an outcome of its own, next to a normal return. *)

From Stdlib Require Import ZArith Bool String Ascii List Lia DecimalString.
From Stdlib Require Import DecimalFacts DecimalPos.
Import ListNotations.

Local Open Scope string_scope.
Local Open Scope Z_scope.

(** ** Fixed-width signed integers *)

Module Int.

(** [wrap w x] is the value a [w]-bit two's-complement register holds after
    storing the exact integer [x]. *)
Definition wrap (w : Z) (x : Z) : Z :=
  (x + 2 ^ (w - 1)) mod 2 ^ w - 2 ^ (w - 1).

Definition min64 : Z := -9223372036854775808.
Definition max64 : Z := 9223372036854775807.
Definition min32 : Z := -2147483648.
Definition max32 : Z := 2147483647.

Definition in64 (x : Z) : Prop := min64 <= x <= max64.
Definition in32 (x : Z) : Prop := min32 <= x <= max32.

Definition int64 (x : Z) : Z := wrap 64 x.
Definition int32 (x : Z) : Z := wrap 32 x.

Definition add64 (a b : Z) : Z := int64 (a + b).
Definition sub64 (a b : Z) : Z := int64 (a - b).
Definition neg64 (a : Z) : Z := int64 (- a).
Definition mul64 (a b : Z) : Z := int64 (a * b).
(** Go's [/] truncates toward zero and [%] takes the sign of the dividend;
    [MinInt64 / -1] wraps.  The divisor is nonzero here: the caller decides
    what a zero divisor does. *)
Definition quo64 (a b : Z) : Z := int64 (Z.quot a b).
Definition rem64 (a b : Z) : Z := int64 (Z.rem a b).

Definition add32 (a b : Z) : Z := int32 (a + b).
Definition sub32 (a b : Z) : Z := int32 (a - b).
Definition neg32 (a : Z) : Z := int32 (- a).
Definition mul32 (a b : Z) : Z := int32 (a * b).
Definition quo32 (a b : Z) : Z := int32 (Z.quot a b).
Definition rem32 (a b : Z) : Z := int32 (Z.rem a b).

End Int.

Import Int.

(** ** The money value and the package's errors *)

Record Money : Type := mkMoney {
  Units : Z;                (* int64 *)
  Nanos : Z;                (* int32 *)
  CurrencyCode : string
}.

Definition GetUnits (m : Money) : Z := Units m.
Definition GetNanos (m : Money) : Z := Nanos m.
Definition GetCurrencyCode (m : Money) : string := CurrencyCode m.

(** [&pb.Money{}] *)
Definition emptyMoney : Money := mkMoney 0 0 EmptyString.

Inductive error : Type :=
| ErrInvalidValue
| ErrMismatchingCurrency.

(** What a call can end in: a normal return, or a run-time panic. *)
Inductive panic : Type :=
| PanicError (e : error)          (* panic(err) in Must *)
| PanicDivideByZero.              (* runtime error: integer divide by zero *)

Inductive outcome (A : Type) : Type :=
| Returned (a : A)
| Panicked (p : panic).

Arguments Returned {A} a.
Arguments Panicked {A} p.

Definition bind {A B : Type} (o : outcome A) (k : A -> outcome B) : outcome B :=
  match o with
  | Returned a => k a
  | Panicked p => Panicked p
  end.

Notation "x <- c1 ;; c2" := (bind c1 (fun x => c2))
  (at level 61, c1 at next level, right associativity).

(** Go's integer division [a / b] on [int64]: a zero divisor is a run-time
    panic, anything else truncates toward zero. *)
Definition div64 (a b : Z) : outcome Z :=
  if b =? 0 then Panicked PanicDivideByZero else Returned (quo64 a b).

Definition nanosMin : Z := -999999999.
Definition nanosMax : Z := 999999999.
Definition nanosMod : Z := 1000000000.

(** ** Predicates *)

Definition validNanos (nanos : Z) : bool :=
  (nanosMin <=? nanos) && (nanos <=? nanosMax).

Definition signMatches (m : Money) : bool :=
  (GetNanos m =? 0) || (GetUnits m =? 0)
  || Bool.eqb (GetNanos m <? 0) (GetUnits m <? 0).

Definition IsValid (m : Money) : bool :=
  signMatches m && validNanos (GetNanos m).

Definition IsZero (m : Money) : bool :=
  (GetUnits m =? 0) && (GetNanos m =? 0).

(** Go parses [a && b || c] as [(a && b) || c]. *)
Definition IsPositive (m : Money) : bool :=
  (IsValid m && (0 <? GetUnits m))
  || ((GetUnits m =? 0) && (0 <? GetNanos m)).

Definition IsNegative (m : Money) : bool :=
  (IsValid m && (GetUnits m <? 0))
  || ((GetUnits m =? 0) && (GetNanos m <? 0)).

Definition AreSameCurrency (l r : Money) : bool :=
  String.eqb (GetCurrencyCode l) (GetCurrencyCode r)
  && negb (String.eqb (GetCurrencyCode l) EmptyString).

Definition AreEquals (l r : Money) : bool :=
  String.eqb (GetCurrencyCode l) (GetCurrencyCode r)
  && (GetUnits l =? GetUnits r) && (GetNanos l =? GetNanos r).

(** ** Negation and addition *)

Definition Negate (m : Money) : Money :=
  mkMoney (neg64 (GetUnits m)) (neg32 (GetNanos m)) (GetCurrencyCode m).

Definition Must (ve : Money * option error) : outcome Money :=
  match snd ve with
  | Some err => Panicked (PanicError err)
  | None => Returned (fst ve)
  end.

Definition Sum (l r : Money) : Money * option error :=
  if negb (IsValid l) || negb (IsValid r) then
    (emptyMoney, Some ErrInvalidValue)
  else if negb (String.eqb (GetCurrencyCode l) (GetCurrencyCode r)) then
    (emptyMoney, Some ErrMismatchingCurrency)
  else
    let units := add64 (GetUnits l) (GetUnits r) in
    let nanos := add32 (GetNanos l) (GetNanos r) in
    let '(units, nanos) :=
      if ((units =? 0) && (nanos =? 0))
         || ((0 <? units) && (0 <=? nanos))
         || ((units <? 0) && (nanos <=? 0))
      then
        (* same sign <units, nanos> *)
        (add64 units (int64 (quo32 nanos nanosMod)), rem32 nanos nanosMod)
      else
        (* different sign *)
        if 0 <? units
        then (sub64 units 1, add32 nanos nanosMod)
        else (add64 units 1, sub32 nanos nanosMod) in
    (mkMoney units nanos (GetCurrencyCode l), None).

(** ** Multiplication and "division" by repeated addition *)

(** [for n > 1 { out = Must(Sum(out, m)); n-- }] with the counter [n] of
    type [uint32]: the guard [n > 1] is the pattern [S (S _)]. *)
Fixpoint addLoop (n : nat) (out m : Money) : outcome Money :=
  match n with
  | S (S _ as n') => out' <- Must (Sum out m) ;; addLoop n' out' m
  | _ => Returned out
  end.

(** The count [n] is a [uint32], here a [Z] that is not negative. *)
Definition MultiplyInt (m : Money) (n : Z) : outcome Money :=
  addLoop (Z.to_nat n) m m.

Definition DivideInt (m : Money) (n : Z) : outcome Money :=
  addLoop (Z.to_nat n) (Negate m) m.

(** ** The fast path: two-decimal scaled integers *)

Definition unitsAndNanoPartToMicros (units nanos : Z) : Z :=
  add64 (mul64 units 100) (int64 (quo32 nanos 10000000)).

Definition microsToUnitsAndNanoPart (micros : Z) : Z * Z :=
  (quo64 micros 10000, mul32 (int32 (rem64 micros 10000)) 100000).

Definition toGoogleMoney (valueMicros : Z) (currencyCode : string) : Money :=
  let '(units, nanoPart) := microsToUnitsAndNanoPart valueMicros in
  mkMoney units nanoPart currencyCode.

Definition MultipleFast (l r : Money) : Money :=
  let lr := unitsAndNanoPartToMicros (Units l) (Nanos l) in
  let rr := unitsAndNanoPartToMicros (Units r) (Nanos r) in
  let ln := mul64 lr rr in
  toGoogleMoney ln (CurrencyCode l).

Definition DivideFast (l r : Money) : outcome Money :=
  let lr := unitsAndNanoPartToMicros (Units l) (Nanos l) in
  let rr := unitsAndNanoPartToMicros (Units r) (Nanos r) in
  ln <- div64 lr rr ;;
  Returned (toGoogleMoney ln (CurrencyCode l)).

Definition DivideFastInt (l : Money) (r : Z) : outcome Money :=
  let lr := unitsAndNanoPartToMicros (Units l) (Nanos l) in
  ln <- div64 lr r ;;
  Returned (toGoogleMoney ln (CurrencyCode l)).

Definition MultipleFastInt (l : Money) (r : Z) : Money :=
  let lr := unitsAndNanoPartToMicros (Units l) (Nanos l) in
  let ln := mul64 lr r in
  toGoogleMoney ln (CurrencyCode l).

Definition ToInt (l : Money) : Z :=
  unitsAndNanoPartToMicros (GetUnits l) (GetNanos l).

(** ** The micro-unit helpers (not called by the operations above) *)

Definition unitsToMicros (units : Z) : Z := mul64 units 1000000.

Definition unitsAndMicroPartToMicros (units micros : Z) : Z :=
  add64 (unitsToMicros units) micros.

Definition microsToUnitsAndMicroPart (micros : Z) : Z * Z :=
  (quo64 micros 1000000, rem64 micros 1000000).

(** ** Formatting *)

Module Fmt.

(** [strconv.Itoa]: the decimal digits, with a leading minus sign for a
    negative number. *)
Definition Itoa (z : Z) : string := NilZero.string_of_int (Z.to_int z).

Fixpoint inCutset (c : ascii) (cutset : string) : bool :=
  match cutset with
  | EmptyString => false
  | String d rest => Ascii.eqb c d || inCutset c rest
  end.

(** [strings.TrimRight]: a character goes when it is in the cutset and
    everything after it went. *)
Fixpoint TrimRight (s cutset : string) : string :=
  match s with
  | EmptyString => EmptyString
  | String c rest =>
      match TrimRight rest cutset with
      | EmptyString => if inCutset c cutset then EmptyString else String c EmptyString
      | kept => String c kept
      end
  end.

(** An operand of [fmt.Sprintf], with its Go type. *)
Inductive arg : Type :=
| ArgInt64 (z : Z)
| ArgString (s : string).

(** One verb applied to one operand.  [%d] prints an integer in base 10 and
    [%s] a string as it is; a verb that does not fit the operand's type
    prints [%!verb(type=value)]. *)
Definition formatVerb (verb : ascii) (a : arg) : string :=
  match a with
  | ArgInt64 z =>
      if Ascii.eqb verb "d" then Itoa z
      else "%!" ++ String verb ("(int64=" ++ Itoa z ++ ")")
  | ArgString s =>
      if Ascii.eqb verb "s" then s
      else "%!" ++ String verb ("(string=" ++ s ++ ")")
  end.

(** [fmt.Sprintf] for formats made of literal text and the plain verbs
    above (no flags, widths or [%%]). *)
Fixpoint Sprintf (format : string) (args : list arg) : string :=
  match format with
  | EmptyString => EmptyString
  | String "%" (String verb rest) =>
      match args with
      | a :: args' => formatVerb verb a ++ Sprintf rest args'
      | [] => "%!" ++ String verb ("(MISSING)" ++ Sprintf rest [])
      end
  | String c rest => String c (Sprintf rest args)
  end.

End Fmt.

Definition ToStringDollars (l : Money) : string :=
  let nanos := Fmt.Itoa (GetNanos l) in
  let nanos := Fmt.TrimRight nanos "0" in
  let nanos :=
    if String.eqb nanos EmptyString then "00"
    else if Nat.eqb (String.length nanos) 1 then nanos ++ "0"
    else nanos in
  Fmt.Sprintf "%d.%d" [Fmt.ArgInt64 (GetUnits l); Fmt.ArgString nanos].

(** ** The represented value *)

(** The amount a money value stands for, in nanos:
    [units + nanos/1_000_000_000] scaled by one billion. *)
Definition amount (m : Money) : Z := Units m * nanosMod + Nanos m.

(** The money value in canonical form for an amount: truncating division
    gives both fields the sign of the amount. *)
Definition ofAmount (v : Z) (currencyCode : string) : Money :=
  mkMoney (Z.quot v nanosMod) (Z.rem v nanosMod) currencyCode.

(** The amount of a money value in hundredths of a unit, truncated. *)
Definition cents (m : Money) : Z := Z.quot (amount m) 10000000.

(** The fraction text [ToStringDollars] builds before formatting: the
    decimal digits of [nanos] without trailing zeros, ["00"] when nothing
    is left, one zero appended to a single character. *)
Definition fractionText (nanos : Z) : string :=
  let s := Fmt.TrimRight (Fmt.Itoa nanos) "0" in
  if String.eqb s EmptyString then "00"
  else if Nat.eqb (String.length s) 1 then s ++ "0"
  else s.

(** Shorthands of the package's test file. *)
Definition mmc (u n : Z) (c : string) : Money := mkMoney u n c.
Definition mm (u n : Z) : Money := mmc u n EmptyString.

(** * Facts about the fixed-width integers *)

Lemma int64_id (x : Z) : in64 x -> int64 x = x.
Proof.
  unfold in64, min64, max64, int64, wrap; intros H.
  change (2 ^ (64 - 1)) with 9223372036854775808.
  change (2 ^ 64) with 18446744073709551616.
  rewrite Z.mod_small; lia.
Qed.

Lemma int32_id (x : Z) : in32 x -> int32 x = x.
Proof.
  unfold in32, min32, max32, int32, wrap; intros H.
  change (2 ^ (32 - 1)) with 2147483648.
  change (2 ^ 32) with 4294967296.
  rewrite Z.mod_small; lia.
Qed.

Lemma int64_range (x : Z) : in64 (int64 x).
Proof.
  unfold in64, min64, max64, int64, wrap.
  change (2 ^ (64 - 1)) with 9223372036854775808.
  change (2 ^ 64) with 18446744073709551616.
  pose proof (Z.mod_pos_bound (x + 9223372036854775808) 18446744073709551616).
  lia.
Qed.

(** Wrapping is a ring morphism for addition: it may be done late. *)
Lemma int64_add_idemp (a b : Z) : int64 (int64 a + int64 b) = int64 (a + b).
Proof.
  unfold int64, wrap.
  change (2 ^ (64 - 1)) with 9223372036854775808.
  change (2 ^ 64) with 18446744073709551616.
  f_equal.
  replace ((a + 9223372036854775808) mod 18446744073709551616 - 9223372036854775808 +
           ((b + 9223372036854775808) mod 18446744073709551616 - 9223372036854775808) +
           9223372036854775808)
    with ((a + 9223372036854775808) mod 18446744073709551616 +
          (b + 9223372036854775808) mod 18446744073709551616 +
          (- 9223372036854775808)) by lia.
  rewrite <- Z.add_mod_idemp_l by lia.
  rewrite <- Z.add_mod by lia.
  rewrite Z.add_mod_idemp_l by lia.
  f_equal; lia.
Qed.

(** * Facts about the predicates *)

Lemma validNanos_spec (n : Z) :
  validNanos n = true <-> -999999999 <= n <= 999999999.
Proof. unfold validNanos, nanosMin, nanosMax. lia. Qed.

Lemma signMatches_spec (m : Money) :
  signMatches m = true <->
  Nanos m = 0 \/ Units m = 0 \/ (Nanos m < 0 <-> Units m < 0).
Proof.
  unfold signMatches, GetNanos, GetUnits.
  rewrite !orb_true_iff, !Z.eqb_eq, eqb_true_iff.
  destruct (Z.ltb_spec (Nanos m) 0), (Z.ltb_spec (Units m) 0);
    intuition (try lia; try discriminate).
Qed.

Lemma IsValid_spec (m : Money) :
  IsValid m = true <->
  (Nanos m = 0 \/ Units m = 0 \/ (Nanos m < 0 <-> Units m < 0))
  /\ -999999999 <= Nanos m <= 999999999.
Proof.
  unfold IsValid, GetNanos.
  now rewrite andb_true_iff, signMatches_spec, validNanos_spec.
Qed.

(** [Sum] on operands that pass both checks. *)
Lemma Sum_checks_passed (l r : Money) :
  IsValid l = true -> IsValid r = true -> CurrencyCode l = CurrencyCode r ->
  exists units nanos,
    Sum l r = (mkMoney units nanos (CurrencyCode l), None).
Proof.
  intros Hl Hr Hc. unfold Sum, GetCurrencyCode.
  rewrite Hl, Hr, Hc, String.eqb_refl. cbn [negb orb].
  destruct (_ || _ || _); [ | destruct (0 <? _) ]; eauto.
Qed.

(** * The test table of the package ([TestSum]) *)

Example TestSum_table :
  Sum (mm 0 0) (mm 0 0) = (mm 0 0, None)
  /\ Sum (mmc 0 0 "XXX") (mm 0 0) = (mm 0 0, Some ErrMismatchingCurrency)
  /\ Sum (mm 0 0) (mmc 0 0 "YYY") = (mm 0 0, Some ErrMismatchingCurrency)
  /\ Sum (mmc 0 0 "AAA") (mmc 0 0 "BBB") = (mm 0 0, Some ErrMismatchingCurrency)
  /\ Sum (mm 1 (-1)) (mm 0 0) = (mm 0 0, Some ErrInvalidValue)
  /\ Sum (mm 0 0) (mm (-1) 2) = (mm 0 0, Some ErrInvalidValue)
  /\ Sum (mm 0 1000000000) (mm 1 0) = (mm 0 0, Some ErrInvalidValue)
  /\ Sum (mm 2 200000000) (mm 2 200000000) = (mm 4 400000000, None)
  /\ Sum (mm 2 111111111) (mm 2 888888888) = (mm 4 999999999, None)
  /\ Sum (mm 2 200000000) (mm 2 900000000) = (mm 5 100000000, None)
  /\ Sum (mm (-2) (-200000000)) (mm (-2) (-200000000)) = (mm (-4) (-400000000), None)
  /\ Sum (mm (-2) (-200000000)) (mm (-2) (-900000000)) = (mm (-5) (-100000000), None)
  /\ Sum (mm 11 0) (mm (-2) 0) = (mm 9 0, None)
  /\ Sum (mm (-11) 0) (mm 2 0) = (mm (-9) 0, None)
  /\ Sum (mm 11 100000000) (mm (-2) (-100000000)) = (mm 9 0, None)
  /\ Sum (mm 11 100000000) (mm (-2) (-9000000)) = (mm 9 91000000, None)
  /\ Sum (mm (-11) (-100000000)) (mm 2 100000000) = (mm (-9) 0, None)
  /\ Sum (mm (-11) (-100000000)) (mm 2 9000000) = (mm (-9) (-91000000), None)
  /\ Sum (mm 0 0) (mm (-2) (-100000000)) = (mm (-2) (-100000000), None)
  /\ Sum (mm (-2) (-100000000)) (mm 0 0) = (mm (-2) (-100000000), None).
Proof. vm_compute. repeat split. Qed.

(** * Error reporting of [Sum] *)

(** C2. [Sum] checks validity first: if either operand fails [IsValid] the
    error is [ErrInvalidValue].  Otherwise the error is
    [ErrMismatchingCurrency] exactly when the two currency-code strings
    differ, and there is no error when they are equal.  Two empty codes are
    equal and pass; [Sum] of [{0,0,"XXX"}] and [{0,0}] (no code) fails with
    [ErrMismatchingCurrency]. *)
Theorem Sum_error_order (l r : Money) :
  (IsValid l = false \/ IsValid r = false ->
   snd (Sum l r) = Some ErrInvalidValue)
  /\ (IsValid l = true -> IsValid r = true ->
      (snd (Sum l r) = Some ErrMismatchingCurrency
       <-> GetCurrencyCode l <> GetCurrencyCode r))
  /\ (IsValid l = true -> IsValid r = true ->
      GetCurrencyCode l = GetCurrencyCode r -> snd (Sum l r) = None)
  /\ snd (Sum (mmc 0 0 EmptyString) (mmc 0 0 EmptyString)) = None
  /\ snd (Sum (mmc 0 0 "XXX") (mmc 0 0 EmptyString)) = Some ErrMismatchingCurrency.
Proof.
  split; [ | split; [ | split; [ | split; reflexivity ] ] ].
  - intros [H | H]; unfold Sum; rewrite H; cbn [negb orb snd].
    + reflexivity.
    + now rewrite orb_true_r.
  - intros Hl Hr. unfold Sum. rewrite Hl, Hr. cbn [negb orb].
    destruct (String.eqb_spec (GetCurrencyCode l) (GetCurrencyCode r)) as [E | E].
    + cbn [negb].
      destruct (_ || _ || _); [ | destruct (0 <? _) ]; cbn [snd];
        (split; [ discriminate | intros D; now elim D ]).
    + cbn [negb snd]. split; [ intros _; exact E | reflexivity ].
  - intros Hl Hr E.
    destruct (Sum_checks_passed l r Hl Hr E) as (u & n & ->). reflexivity.
Qed.

Lemma Sum_error_order_witness :
  snd (Sum (mmc 2 200000000 "USD") (mmc 1 (-1) "USD")) = Some ErrInvalidValue
  /\ snd (Sum (mmc 2 200000000 "USD") (mmc 2 900000000 "EUR"))
     = Some ErrMismatchingCurrency
  /\ snd (Sum (mmc 2 200000000 "USD") (mmc 2 900000000 "USD")) = None.
Proof.
  split; [ | split ].
  - destruct (Sum_error_order (mmc 2 200000000 "USD") (mmc 1 (-1) "USD"))
      as (H & _).
    apply H. right. reflexivity.
  - destruct (Sum_error_order (mmc 2 200000000 "USD") (mmc 2 900000000 "EUR"))
      as (_ & H & _).
    apply H; [ reflexivity | reflexivity | discriminate ].
  - destruct (Sum_error_order (mmc 2 200000000 "USD") (mmc 2 900000000 "USD"))
      as (_ & _ & H & _).
    apply H; reflexivity.
Defined.

(** * Commutativity of [Sum] *)

(** C8. [Sum] is commutative: [Sum(a, b)] and [Sum(b, a)] return the same
    value (units, nanos and currency code) and the same error, for every
    pair of money values, valid or not. *)
Theorem Sum_comm (a b : Money) : Sum a b = Sum b a.
Proof.
  unfold Sum.
  rewrite (orb_comm (negb (IsValid a))).
  destruct (negb (IsValid b) || negb (IsValid a)); [ reflexivity | ].
  rewrite (String.eqb_sym (GetCurrencyCode b)).
  destruct (String.eqb_spec (GetCurrencyCode a) (GetCurrencyCode b)) as [E | E];
    [ | reflexivity ].
  cbn [negb]. rewrite E.
  unfold add64, add32.
  rewrite (Z.add_comm (GetUnits b)), (Z.add_comm (GetNanos b)).
  reflexivity.
Qed.

(** * The sign predicates *)

(** What [IsPositive] and [IsNegative] compute, given how Go groups
    [a && b || c]: the validity check guards the first disjunct only. *)
Lemma IsPositive_spec (m : Money) :
  IsPositive m = true <->
  (IsValid m = true /\ 0 < Units m) \/ (Units m = 0 /\ 0 < Nanos m).
Proof.
  unfold IsPositive, GetUnits, GetNanos.
  rewrite orb_true_iff, !andb_true_iff, Z.eqb_eq, !Z.ltb_lt. tauto.
Qed.

Lemma IsNegative_spec (m : Money) :
  IsNegative m = true <->
  (IsValid m = true /\ Units m < 0) \/ (Units m = 0 /\ Nanos m < 0).
Proof.
  unfold IsNegative, GetUnits, GetNanos.
  rewrite orb_true_iff, !andb_true_iff, Z.eqb_eq, !Z.ltb_lt. tauto.
Qed.

(** C5, at the input where it fails.  A value with [units = 0] and a
    positive [nanos] beyond 999,999,999 is not valid, yet [IsPositive]
    answers true; the mirror image holds for [IsNegative]. *)
Theorem IsPositive_true_on_invalid :
  IsValid (mm 0 2000000000) = false
  /\ IsPositive (mm 0 2000000000) = true
  /\ IsValid (mm 0 (-2000000000)) = false
  /\ IsNegative (mm 0 (-2000000000)) = true.
Proof. repeat split. Qed.

(** On valid values the two predicates do classify by the combined sign. *)
Lemma IsPositive_valid (m : Money) :
  IsValid m = true ->
  (IsPositive m = true <-> 0 < Units m \/ (Units m = 0 /\ 0 < Nanos m))
  /\ (IsNegative m = true <-> Units m < 0 \/ (Units m = 0 /\ Nanos m < 0)).
Proof.
  intros H. rewrite IsPositive_spec, IsNegative_spec. tauto.
Qed.

(** * Repeated addition with a count of at most one *)

(** C10. For a count [n <= 1] (zero included) the loop body never runs:
    [MultiplyInt(m, n)] returns [m] itself and [DivideInt(m, n)] returns
    [Negate(m)]. *)
Theorem count_at_most_one_skips_loop (m : Money) (n : Z) :
  n <= 1 ->
  MultiplyInt m n = Returned m /\ DivideInt m n = Returned (Negate m).
Proof.
  intros H. unfold MultiplyInt, DivideInt.
  assert (E : Z.to_nat n = O \/ Z.to_nat n = 1%nat) by lia.
  destruct E as [-> | ->]; split; reflexivity.
Qed.

Lemma count_at_most_one_skips_loop_witness :
  (MultiplyInt (mmc 3 250000000 "USD") 0 = Returned (mmc 3 250000000 "USD")
   /\ DivideInt (mmc 3 250000000 "USD") 0
      = Returned (Negate (mmc 3 250000000 "USD")))
  /\ (MultiplyInt (mmc 3 250000000 "USD") 1 = Returned (mmc 3 250000000 "USD")
      /\ DivideInt (mmc 3 250000000 "USD") 1
         = Returned (Negate (mmc 3 250000000 "USD"))).
Proof.
  split.
  - apply (count_at_most_one_skips_loop (mmc 3 250000000 "USD") 0). lia.
  - apply (count_at_most_one_skips_loop (mmc 3 250000000 "USD") 1). lia.
Defined.

(** * The fast path *)

Lemma quo32_small (n d : Z) : in32 n -> 1 < d -> quo32 n d = Z.quot n d.
Proof.
  intros Hn Hd. unfold quo32. apply int32_id.
  unfold in32, min32, max32 in *.
  Z.to_euclidean_division_equations. nia.
Qed.

Lemma quo64_small (n d : Z) : in64 n -> 1 < d -> quo64 n d = Z.quot n d.
Proof.
  intros Hn Hd. unfold quo64. apply int64_id.
  unfold in64, min64, max64 in *.
  Z.to_euclidean_division_equations. nia.
Qed.

(** C7. The scale conversions of the fast path use the fixed factors, in
    Go's [int64]/[int32] arithmetic.  Encoding computes
    [units*100 + nanos/10_000_000] with truncating division (stored in an
    [int64], so exactly that integer whenever it fits); decoding computes
    [units = scaled/10_000] and [nanos = (scaled % 10_000)*100_000], where
    no intermediate wraps; and [ToInt] is the encode step applied to the
    fields of its argument. *)
Theorem fast_path_scale_factors (units nanos scaled : Z) (m : Money) :
  in64 units -> in32 nanos -> in64 scaled ->
  unitsAndNanoPartToMicros units nanos
  = int64 (units * 100 + Z.quot nanos 10000000)
  /\ (in64 (units * 100 + Z.quot nanos 10000000) ->
      unitsAndNanoPartToMicros units nanos
      = units * 100 + Z.quot nanos 10000000)
  /\ microsToUnitsAndNanoPart scaled
     = (Z.quot scaled 10000, Z.rem scaled 10000 * 100000)
  /\ ToInt m = unitsAndNanoPartToMicros (Units m) (Nanos m).
Proof.
  intros Hu Hn Hs.
  assert (E : unitsAndNanoPartToMicros units nanos
              = int64 (units * 100 + Z.quot nanos 10000000)).
  { unfold unitsAndNanoPartToMicros, add64, mul64.
    rewrite quo32_small by (assumption || lia).
    apply int64_add_idemp. }
  split; [ exact E | split; [ | split ] ].
  - intros Hfit. rewrite E. now apply int64_id.
  - unfold microsToUnitsAndNanoPart.
    rewrite quo64_small by (assumption || lia).
    f_equal.
    assert (R : -10000 < Z.rem scaled 10000 < 10000)
      by (Z.to_euclidean_division_equations; lia).
    unfold rem64, mul32.
    rewrite (int64_id (Z.rem scaled 10000)) by (unfold in64, min64, max64; lia).
    rewrite (int32_id (Z.rem scaled 10000)) by (unfold in32, min32, max32; lia).
    apply int32_id. unfold in32, min32, max32; lia.
  - reflexivity.
Qed.

Lemma fast_path_scale_factors_witness :
  unitsAndNanoPartToMicros 5 910000000 = int64 (5 * 100 + Z.quot 910000000 10000000)
  /\ (in64 (5 * 100 + Z.quot 910000000 10000000) ->
      unitsAndNanoPartToMicros 5 910000000 = 5 * 100 + Z.quot 910000000 10000000)
  /\ microsToUnitsAndNanoPart (-123456)
     = (Z.quot (-123456) 10000, Z.rem (-123456) 10000 * 100000)
  /\ ToInt (mmc 5 910000000 "USD")
     = unitsAndNanoPartToMicros (Units (mmc 5 910000000 "USD"))
                                (Nanos (mmc 5 910000000 "USD")).
Proof.
  apply (fast_path_scale_factors 5 910000000 (-123456) (mmc 5 910000000 "USD"));
    unfold in64, in32, min64, max64, min32, max32; lia.
Defined.

(** The asymmetry of the two factors, on the spec's own example value:
    5.91 encodes to 591 and 591 decodes to 0.0591. *)
Example encode_decode_not_inverse :
  ToInt (mm 5 910000000) = 591
  /\ toGoogleMoney 591 EmptyString = mm 0 59100000.
Proof. split; reflexivity. Qed.

(** C6, at an input where it fails: with a zero divisor both fast
    divisions end in the run-time panic of Go's integer division; no value
    and no error is returned. *)
Lemma fast_division_by_zero_panics_example :
  DivideFastInt (mmc 1 0 "USD") 0 = Panicked PanicDivideByZero
  /\ DivideFast (mmc 1 0 "USD") (mmc 0 0 "USD") = Panicked PanicDivideByZero.
Proof. split; reflexivity. Qed.

(** C6 as amended.  The fast divisions divide natively, with no zero check
    and no error result.  For every dividend, a divisor whose scaled value
    is zero makes [DivideFast] panic with integer-divide-by-zero, and so
    does the divisor 0 for [DivideFastInt]; with a nonzero divisor they
    return a value, the decoded [int64] quotient of the scaled integers
    with the currency code of the dividend. *)
Theorem fast_division_panics_exactly_on_zero_divisor
  (l r : Money) (d : Z) :
  (ToInt r = 0 -> DivideFast l r = Panicked PanicDivideByZero)
  /\ (ToInt r <> 0 ->
      DivideFast l r
      = Returned (toGoogleMoney (quo64 (ToInt l) (ToInt r)) (CurrencyCode l)))
  /\ (d = 0 -> DivideFastInt l d = Panicked PanicDivideByZero)
  /\ (d <> 0 ->
      DivideFastInt l d
      = Returned (toGoogleMoney (quo64 (ToInt l) d) (CurrencyCode l))).
Proof.
  unfold ToInt, GetUnits, GetNanos, DivideFast, DivideFastInt, div64.
  split; [ | split; [ | split ] ].
  - intros ->. reflexivity.
  - intros Hr.
    destruct (Z.eqb_spec (unitsAndNanoPartToMicros (Units r) (Nanos r)) 0);
      [ contradiction | reflexivity ].
  - intros ->. reflexivity.
  - intros Hd. destruct (Z.eqb_spec d 0); [ contradiction | reflexivity ].
Qed.

Lemma fast_division_panics_exactly_on_zero_divisor_witness :
  DivideFast (mmc 7 250000000 "USD") (mmc 0 9999999 "USD")
  = Panicked PanicDivideByZero
  /\ DivideFast (mmc 7 250000000 "USD") (mmc 0 500000000 "USD")
     = Returned (mmc 0 1400000 "USD")
  /\ DivideFastInt (mmc 7 250000000 "USD") 0 = Panicked PanicDivideByZero
  /\ DivideFastInt (mmc 7 250000000 "USD") 5 = Returned (mmc 0 14500000 "USD").
Proof.
  destruct (fast_division_panics_exactly_on_zero_divisor
              (mmc 7 250000000 "USD") (mmc 0 9999999 "USD") 0)
    as (Hz & _ & Hz' & _).
  destruct (fast_division_panics_exactly_on_zero_divisor
              (mmc 7 250000000 "USD") (mmc 0 500000000 "USD") 5)
    as (_ & Hn & _ & Hn').
  split; [ apply Hz; reflexivity | ].
  split; [ rewrite Hn by (vm_compute; discriminate); reflexivity | ].
  split; [ apply Hz'; reflexivity | ].
  rewrite Hn' by discriminate. reflexivity.
Defined.

(** A nonzero divisor never panics. *)
Lemma fast_division_nonzero_returns (l r : Money) (d : Z) :
  ToInt r <> 0 -> d <> 0 ->
  (exists out, DivideFast l r = Returned out)
  /\ (exists out, DivideFastInt l d = Returned out).
Proof.
  unfold ToInt, GetUnits, GetNanos, DivideFast, DivideFastInt, div64.
  intros Hr Hd.
  destruct (Z.eqb_spec (unitsAndNanoPartToMicros (Units r) (Nanos r)) 0);
    [ contradiction | ].
  destruct (Z.eqb_spec d 0); [ contradiction | ].
  split; eexists; reflexivity.
Qed.

(** * Formatting *)

Lemma append_empty_r (s : string) : s ++ EmptyString = s.
Proof. induction s as [ | c s IH ]; cbn; [ | rewrite IH ]; reflexivity. Qed.

(** What [ToStringDollars] returns: the fraction text is handed to the
    verb [%d], which is for integers, so it comes out wrapped in
    [%!d(string=...)]. *)
Lemma ToStringDollars_shape (l : Money) :
  ToStringDollars l
  = Fmt.Itoa (Units l) ++ "." ++ "%!d(string=" ++ fractionText (Nanos l) ++ ")".
Proof.
  unfold ToStringDollars, fractionText, GetUnits, GetNanos.
  cbn [Fmt.Sprintf Fmt.formatVerb Ascii.eqb Bool.eqb].
  rewrite append_empty_r. reflexivity.
Qed.

(** C3, at the inputs it names. The fraction text is right (["91"] and
    ["00"]) but the rendered string is not ["5.91"] or ["5.00"]. *)
Theorem ToStringDollars_examples :
  fractionText 910000000 = "91"
  /\ fractionText 0 = "00"
  /\ ToStringDollars (mm 5 910000000) = "5.%!d(string=91)"
  /\ ToStringDollars (mm 5 0) = "5.%!d(string=00)"
  /\ ToStringDollars (mm 5 910000000) <> "5.91"
  /\ ToStringDollars (mm 5 0) <> "5.00".
Proof.
  repeat split; try reflexivity; vm_compute; discriminate.
Qed.

(** * Valid values are canonical forms *)

Ltac unfold_ranges :=
  unfold in64, in32, min64, max64, min32, max32, nanosMod in *.

(** Rewrites away every wrap whose operand provably fits. *)
Ltac drop_wraps :=
  repeat match goal with
    | |- context [int64 ?x] =>
        rewrite (int64_id x)
          by (unfold_ranges; Z.to_euclidean_division_equations; lia)
    | |- context [int32 ?x] =>
        rewrite (int32_id x)
          by (unfold_ranges; Z.to_euclidean_division_equations; lia)
    end.

Lemma amount_ofAmount (v : Z) (c : string) : amount (ofAmount v c) = v.
Proof.
  unfold amount, ofAmount; cbn [Units Nanos].
  pose proof (Z.quot_rem' v nanosMod). lia.
Qed.

Lemma ofAmount_valid (v : Z) (c : string) : IsValid (ofAmount v c) = true.
Proof.
  apply IsValid_spec. unfold ofAmount, nanosMod; cbn [Units Nanos].
  Z.to_euclidean_division_equations. lia.
Qed.

Lemma valid_canonical (m : Money) :
  IsValid m = true -> m = ofAmount (amount m) (CurrencyCode m).
Proof.
  rewrite IsValid_spec. destruct m as [u n c].
  unfold ofAmount, amount, nanosMod; cbn [Units Nanos CurrencyCode].
  intros H. f_equal; Z.to_euclidean_division_equations; lia.
Qed.

(** * Addition *)

(** [Sum] adds the represented amounts and returns the canonical form,
    provided the raw unit sum is not cancelled to zero under a nonzero
    nanos sum and the 64-bit unit additions do not overflow. *)
Lemma Sum_exact (l r : Money) :
  IsValid l = true -> IsValid r = true -> CurrencyCode l = CurrencyCode r ->
  Units l + Units r <> 0 \/ Nanos l + Nanos r = 0 ->
  in64 (Units l + Units r) ->
  in64 (Units l + Units r + Z.quot (Nanos l + Nanos r) nanosMod) ->
  Sum l r = (ofAmount (amount l + amount r) (CurrencyCode l), None).
Proof.
  intros Hl Hr Hc Hnz HU HC.
  unfold Sum, GetCurrencyCode, GetUnits, GetNanos.
  rewrite Hl, Hr, Hc, String.eqb_refl. cbn [negb orb].
  apply IsValid_spec in Hl, Hr.
  unfold add64, add32.
  rewrite (int64_id (Units l + Units r)) by assumption.
  rewrite (int32_id (Nanos l + Nanos r)) by (unfold_ranges; lia).
  unfold ofAmount, amount.
  replace (Units l * nanosMod + Nanos l + (Units r * nanosMod + Nanos r))
    with ((Units l + Units r) * nanosMod + (Nanos l + Nanos r)) by ring.
  set (U := Units l + Units r) in *.
  set (N := Nanos l + Nanos r) in *.
  assert (HN : -1999999998 <= N <= 1999999998) by (subst N; lia).
  assert (Hmix1 : 0 < U -> N < 0 -> -1000000000 < N) by (subst U N; lia).
  assert (Hmix2 : U < 0 -> 0 < N -> N < 1000000000) by (subst U N; lia).
  clearbody U N. clear Hl Hr.
  destruct (Z.eqb_spec U 0), (Z.eqb_spec N 0), (Z.ltb_spec 0 U),
    (Z.leb_spec 0 N), (Z.ltb_spec U 0), (Z.leb_spec N 0);
    cbn [andb orb]; try lia;
    unfold add64, sub64, add32, sub32, quo32, rem32;
    drop_wraps;
    do 2 f_equal; unfold_ranges; Z.to_euclidean_division_equations; lia.
Qed.

(** C1, at an input where it fails: both operands are valid and carry the
    same currency code, the unit sum is the largest [int64] and the carry
    out of the nanos wraps it around, so the result pairs negative units
    with positive nanos. *)
Lemma Sum_result_invalid_on_overflow :
  IsValid (mmc 9223372036854775807 999999999 "USD") = true
  /\ IsValid (mmc 0 2 "USD") = true
  /\ Sum (mmc 9223372036854775807 999999999 "USD") (mmc 0 2 "USD")
     = (mmc (-9223372036854775808) 1 "USD", None)
  /\ IsValid (fst (Sum (mmc 9223372036854775807 999999999 "USD")
                       (mmc 0 2 "USD"))) = false.
Proof. vm_compute. repeat split. Qed.

(** C1 as amended.  For valid operands with equal currency codes [Sum]
    returns no error, and its result satisfies [IsValid] whenever the
    64-bit unit additions do not overflow and the raw unit sum is nonzero
    or the raw nanos sum is zero. *)
Theorem Sum_valid_without_overflow (a b : Money) :
  IsValid a = true -> IsValid b = true ->
  GetCurrencyCode a = GetCurrencyCode b ->
  snd (Sum a b) = None
  /\ (Units a + Units b <> 0 \/ Nanos a + Nanos b = 0 ->
      in64 (Units a + Units b) ->
      in64 (Units a + Units b + Z.quot (Nanos a + Nanos b) nanosMod) ->
      IsValid (fst (Sum a b)) = true).
Proof.
  intros Ha Hb Hc. split.
  - destruct (Sum_checks_passed a b Ha Hb Hc) as (u & n & ->). reflexivity.
  - intros Hnz HU HC.
    rewrite (Sum_exact a b Ha Hb Hc Hnz HU HC). cbn [fst].
    apply ofAmount_valid.
Qed.

Lemma Sum_valid_without_overflow_witness :
  snd (Sum (mmc 2 200000000 "USD") (mmc 2 900000000 "USD")) = None
  /\ IsValid (fst (Sum (mmc 2 200000000 "USD") (mmc 2 900000000 "USD"))) = true.
Proof.
  destruct (Sum_valid_without_overflow
              (mmc 2 200000000 "USD") (mmc 2 900000000 "USD")
              eq_refl eq_refl eq_refl) as (E & V).
  split; [ exact E | ].
  apply V; cbn [Units Nanos mmc].
  - left. discriminate.
  - vm_compute. split; discriminate.
  - vm_compute. split; discriminate.
Defined.

(** What the amended statement leaves out: when the units cancel and the
    nanos do not, [Sum] takes the borrow branch and returns a value that
    fails [IsValid]; 0.50 + 0.25 comes out as [{1, -250000000}]. *)
Example Sum_zero_units_takes_borrow_branch :
  Sum (mm 0 500000000) (mm 0 250000000) = (mm 1 (-250000000), None)
  /\ IsValid (mm 1 (-250000000)) = false
  /\ Sum (mm 5 500000000) (mm (-5) (-200000000)) = (mm 1 (-700000000), None)
  /\ Sum (mm 0 5) (mm 0 0) = (mm 1 (-999999995), None).
Proof. vm_compute. repeat split. Qed.

(** * Negation *)

Lemma Negate_canonical (m : Money) :
  IsValid m = true -> in64 (Units m) -> Units m <> min64 ->
  Negate m = ofAmount (- amount m) (CurrencyCode m).
Proof.
  intros Hv Hu Hmin.
  rewrite (valid_canonical m Hv) at 1.
  apply IsValid_spec in Hv.
  unfold Negate, ofAmount, amount, neg64, neg32, GetUnits, GetNanos,
    GetCurrencyCode; cbn [Units Nanos CurrencyCode].
  drop_wraps.
  f_equal; unfold_ranges; Z.to_euclidean_division_equations; lia.
Qed.

(** C9, at an input where it fails: the most negative units with a nonzero
    nanos is valid, its negation is not (the units cannot change sign), and
    [Sum] rejects the pair. *)
Lemma Sum_Negate_rejected_at_min_units :
  IsValid (mmc (-9223372036854775808) (-1) "USD") = true
  /\ Negate (mmc (-9223372036854775808) (-1) "USD")
     = mmc (-9223372036854775808) 1 "USD"
  /\ Sum (mmc (-9223372036854775808) (-1) "USD")
         (Negate (mmc (-9223372036854775808) (-1) "USD"))
     = (emptyMoney, Some ErrInvalidValue).
Proof. vm_compute. repeat split. Qed.

(** C9 as amended.  For every valid [a] other than those with
    [units = -2^63] and nonzero nanos, [Sum(a, Negate(a))] succeeds and
    returns units 0 and nanos 0 with the currency code of [a]. *)
Theorem Sum_Negate_is_zero (a : Money) :
  IsValid a = true -> in64 (Units a) ->
  Units a <> min64 \/ Nanos a = 0 ->
  Sum a (Negate a) = (mkMoney 0 0 (CurrencyCode a), None).
Proof.
  intros Hv Hu Hcase.
  destruct (Z.eq_dec (Units a) min64) as [Emin | Nmin].
  - assert (En : Nanos a = 0) by tauto.
    destruct a as [u n c]. cbn [Units Nanos] in *. subst u n.
    unfold Sum, Negate, GetCurrencyCode, GetUnits, GetNanos;
      cbn [Units Nanos CurrencyCode].
    rewrite String.eqb_refl. reflexivity.
  - rewrite (Negate_canonical a Hv Hu Nmin).
    rewrite (valid_canonical a Hv) at 1.
    pose proof (Hv' := Hv). apply IsValid_spec in Hv'.
    rewrite Sum_exact.
    + rewrite !amount_ofAmount. cbn [ofAmount CurrencyCode].
      replace (amount a + - amount a) with 0 by lia. reflexivity.
    + apply ofAmount_valid.
    + apply ofAmount_valid.
    + reflexivity.
    + right. unfold ofAmount; cbn [Nanos]. rewrite Z.rem_opp_l'. lia.
    + unfold ofAmount; cbn [Units]. rewrite Z.quot_opp_l by (unfold nanosMod; lia).
      unfold_ranges; lia.
    + unfold ofAmount; cbn [Units Nanos].
      rewrite Z.quot_opp_l by (unfold nanosMod; lia). rewrite Z.rem_opp_l'.
      replace (Z.rem (amount a) nanosMod + - Z.rem (amount a) nanosMod) with 0 by lia.
      unfold_ranges; cbn; lia.
Qed.

Lemma Sum_Negate_is_zero_witness :
  Sum (mmc (-11) (-100000000) "USD") (Negate (mmc (-11) (-100000000) "USD"))
  = (mkMoney 0 0 "USD", None).
Proof.
  apply (Sum_Negate_is_zero (mmc (-11) (-100000000) "USD")).
  - reflexivity.
  - cbn [Units mmc]. unfold in64, min64, max64. lia.
  - left. cbn [Units mmc]. unfold min64. lia.
Defined.

(** * Repeated addition *)

Lemma bind_Returned (A : Type) (o : outcome A) : (a <- o ;; Returned a) = o.
Proof. destruct o; reflexivity. Qed.

(** The loop unrolled at its last iteration. *)
Lemma addLoop_last (k : nat) (out m : Money) :
  addLoop (S (S k)) out m = (o <- addLoop (S k) out m ;; Must (Sum o m)).
Proof.
  revert out. induction k as [ | k IH ]; intros out.
  - cbn [addLoop bind]. apply bind_Returned.
  - change (addLoop (S (S (S k))) out m)
      with (out' <- Must (Sum out m) ;; addLoop (S (S k)) out' m).
    change (addLoop (S (S k)) out m)
      with (out' <- Must (Sum out m) ;; addLoop (S k) out' m).
    destruct (Must (Sum out m)) as [out' | p]; cbn [bind].
    + apply IH.
    + reflexivity.
Qed.

Lemma amount_within_units (v : Z) :
  - ((Z.abs (Z.quot v nanosMod) + 1) * nanosMod) <= v
  <= (Z.abs (Z.quot v nanosMod) + 1) * nanosMod.
Proof. unfold nanosMod. Z.to_euclidean_division_equations. lia. Qed.

(** One addition of [v] to [j] times [v], on canonical forms. *)
Lemma Sum_canonical_step (v j : Z) (c : string) :
  -1 <= j ->
  Z.quot v nanosMod <> 0 \/ Z.rem v nanosMod = 0 ->
  (Z.abs (Z.quot v nanosMod) + 1) * (j + 2) <= max64 ->
  Sum (ofAmount (j * v) c) (ofAmount v c) = (ofAmount ((j + 1) * v) c, None).
Proof.
  intros Hj Hnz Hb.
  replace ((j + 1) * v) with (amount (ofAmount (j * v) c) + amount (ofAmount v c))
    by (rewrite !amount_ofAmount; ring).
  assert (Hcases : j = -1 \/ j = 0 \/ 1 <= j) by lia.
  assert (Hw : exists w P, w = j * v /\
             (j = -1 -> w = - v) /\ (j = 0 \/ v = 0 -> w = 0) /\
             (1 <= j -> 0 < v -> v <= w) /\ (1 <= j -> v < 0 -> w <= v) /\
             (0 <= j -> - (P * nanosMod) <= w <= P * nanosMod) /\
             (0 <= j -> 0 <= P /\
                P + 2 * (Z.abs (Z.quot v nanosMod) + 1) <= max64)).
  { exists (j * v), (j * (Z.abs (Z.quot v nanosMod) + 1)).
    pose proof (amount_within_units v) as Hv.
    set (B := Z.abs (Z.quot v nanosMod) + 1) in *.
    assert (HB : 1 <= B) by (subst B; lia).
    clearbody B. unfold nanosMod, max64 in *.
    repeat split; intros; nia. }
  destruct Hw as (w & P & Ew & Hm1 & H0 & Hpos & Hneg & HwP & HP).
  rewrite <- Ew. clear Ew.
  assert (Hb1 : Z.abs (Z.quot v nanosMod) + 1 <= max64)
    by (unfold max64 in *; nia).
  assert (Hfacts : (w = - v \/ w = 0
                    \/ (v <> 0 /\ (0 < v -> v <= w) /\ (v < 0 -> w <= v)))
                   /\ (j = -1 -> w = - v)).
  { split; [ | exact Hm1 ].
    destruct (Z.eq_dec v 0) as [Hv0 | Hv0]; [ auto | ].
    destruct Hcases as [Hc | [Hc | Hc]];
      [ left; auto | right; left; auto | right; right; repeat split; auto ]. }
  clear Hm1 H0 Hpos Hneg Hb.
  assert (HjP : j = -1 \/ 0 <= j) by lia.
  apply Sum_exact; try apply ofAmount_valid; try reflexivity;
    unfold ofAmount; cbn [Units Nanos]; unfold_ranges;
    (destruct HjP as [Hc | Hc];
     [ destruct Hfacts as (_ & Hf); specialize (Hf Hc); clear HwP HP
     | destruct Hfacts as (Hf & _); specialize (HwP Hc); specialize (HP Hc) ]);
    Z.to_euclidean_division_equations; lia.
Qed.

(** The loop on canonical forms: [k] additions take [j] times [v] to
    [j + k] times [v]. *)
Lemma addLoop_canonical (v : Z) (c : string) (k : nat) :
  forall j : Z,
  -1 <= j ->
  Z.quot v nanosMod <> 0 \/ Z.rem v nanosMod = 0 ->
  (Z.abs (Z.quot v nanosMod) + 1) * (j + Z.of_nat k + 1) <= max64 ->
  addLoop (S k) (ofAmount (j * v) c) (ofAmount v c)
  = Returned (ofAmount ((j + Z.of_nat k) * v) c).
Proof.
  induction k as [ | k IH ]; intros j Hj Hnz Hb.
  - cbn [addLoop]. now rewrite Z.add_0_r.
  - change (addLoop (S (S k)) (ofAmount (j * v) c) (ofAmount v c))
      with (out' <- Must (Sum (ofAmount (j * v) c) (ofAmount v c)) ;;
            addLoop (S k) out' (ofAmount v c)).
    rewrite Sum_canonical_step; [ | assumption | assumption | ].
    + cbn [Must snd fst bind].
      rewrite IH; [ | lia | assumption | ].
      * rewrite Nat2Z.inj_succ. do 2 f_equal. ring.
      * replace (j + 1 + Z.of_nat k + 1) with (j + Z.of_nat (S k) + 1) by lia.
        assumption.
    + unfold max64 in *. nia.
Qed.

Lemma DivideInt_canonical (v : Z) (c : string) (n : Z) :
  Z.quot v nanosMod <> 0 \/ Z.rem v nanosMod = 0 ->
  1 <= n ->
  (Z.abs (Z.quot v nanosMod) + 1) * n <= max64 ->
  DivideInt (ofAmount v c) n = Returned (ofAmount ((n - 2) * v) c).
Proof.
  intros Hnz Hn Hb.
  assert (Hu : in64 (Z.quot v nanosMod) /\ Z.quot v nanosMod <> min64)
    by (unfold in64, min64, max64 in *; nia).
  destruct Hu as (Hu & Hmin).
  unfold DivideInt.
  rewrite Negate_canonical by (apply ofAmount_valid || assumption).
  rewrite amount_ofAmount. cbn [CurrencyCode ofAmount].
  replace (- v) with (-1 * v) by lia.
  replace (Z.to_nat n) with (S (Z.to_nat (n - 1))) by lia.
  change (mkMoney (Z.quot (-1 * v) nanosMod) (Z.rem (-1 * v) nanosMod) c)
    with (ofAmount (-1 * v) c).
  change (mkMoney (Z.quot v nanosMod) (Z.rem v nanosMod) c) with (ofAmount v c).
  rewrite addLoop_canonical; [ | lia | assumption | ].
  - rewrite Z2Nat.id by lia. do 2 f_equal. ring.
  - rewrite Z2Nat.id by lia. unfold max64 in *. nia.
Qed.

(** C4, at an input where it fails: with [n = 3] the loop adds [m] twice
    to [Negate(m)], which gives [m] back, not [-2] times [m]. *)
Lemma DivideInt_is_not_one_minus_n :
  DivideInt (mmc 1 0 "USD") 3 = Returned (mmc 1 0 "USD")
  /\ amount (mmc 1 0 "USD") <> (1 - 3) * amount (mmc 1 0 "USD").
Proof. vm_compute. split; [ reflexivity | discriminate ]. Qed.

(** C4 as amended.  [DivideInt(m, n)] starts from [Negate(m)] and adds [m]
    once for every step of the count from [n] down to 2.  For a valid [m]
    whose units are nonzero (or whose nanos are zero), a count [n >= 1] and
    [(|units| + 1) * n] within [int64], it returns a valid value with the
    currency code of [m] whose represented value is [n - 2] times that of
    [m]. *)
Theorem DivideInt_scales_by_n_minus_2 (m : Money) (n : Z) :
  IsValid m = true ->
  Units m <> 0 \/ Nanos m = 0 ->
  1 <= n ->
  (Z.abs (Units m) + 1) * n <= max64 ->
  DivideInt m 1 = Returned (Negate m)
  /\ (1 < n -> DivideInt m n = (out <- DivideInt m (n - 1) ;; Must (Sum out m)))
  /\ exists out,
       DivideInt m n = Returned out
       /\ IsValid out = true
       /\ CurrencyCode out = CurrencyCode m
       /\ amount out = (n - 2) * amount m.
Proof.
  intros Hv Hnz Hn Hb.
  split; [ reflexivity | split ].
  - intros Hn1. unfold DivideInt.
    replace (Z.to_nat n) with (S (S (Z.to_nat (n - 2)))) by lia.
    replace (Z.to_nat (n - 1)) with (S (Z.to_nat (n - 2))) by lia.
    apply addLoop_last.
  - exists (ofAmount ((n - 2) * amount m) (CurrencyCode m)).
    split; [ | split; [ apply ofAmount_valid
                      | split; [ reflexivity | apply amount_ofAmount ] ] ].
    assert (Eu : Units m = Z.quot (amount m) nanosMod /\
                 Nanos m = Z.rem (amount m) nanosMod).
    { rewrite (valid_canonical m Hv) at 1 3. split; reflexivity. }
    destruct Eu as (Eu & En). rewrite Eu, En in *.
    replace (DivideInt m n)
      with (DivideInt (ofAmount (amount m) (CurrencyCode m)) n)
      by (now rewrite <- valid_canonical).
    now apply DivideInt_canonical.
Qed.

Lemma DivideInt_scales_by_n_minus_2_witness :
  exists out,
    DivideInt (mmc 2 500000000 "USD") 5 = Returned out
    /\ IsValid out = true
    /\ CurrencyCode out = "USD"
    /\ amount out = (5 - 2) * amount (mmc 2 500000000 "USD").
Proof.
  apply (DivideInt_scales_by_n_minus_2 (mmc 2 500000000 "USD") 5).
  - reflexivity.
  - left. cbn [Units mmc]. lia.
  - lia.
  - cbn [Units mmc]. unfold max64. lia.
Defined.

(** [MultiplyInt] under the same conditions: [n] times the value of [m]. *)
Lemma MultiplyInt_scales_by_n (m : Money) (n : Z) :
  IsValid m = true ->
  Units m <> 0 \/ Nanos m = 0 ->
  1 <= n ->
  (Z.abs (Units m) + 1) * (n + 1) <= max64 ->
  MultiplyInt m n = Returned (ofAmount (n * amount m) (CurrencyCode m)).
Proof.
  intros Hv Hnz Hn Hb.
  assert (Eu : Units m = Z.quot (amount m) nanosMod /\
               Nanos m = Z.rem (amount m) nanosMod).
  { rewrite (valid_canonical m Hv) at 1 3. split; reflexivity. }
  destruct Eu as (Eu & En). rewrite Eu, En in *.
  replace (MultiplyInt m n)
    with (MultiplyInt (ofAmount (amount m) (CurrencyCode m)) n)
    by (now rewrite <- valid_canonical).
  unfold MultiplyInt.
  replace (Z.to_nat n) with (S (Z.to_nat (n - 1))) by lia.
  replace (addLoop (S (Z.to_nat (n - 1))) (ofAmount (amount m) (CurrencyCode m)))
    with (addLoop (S (Z.to_nat (n - 1)))
            (ofAmount (1 * amount m) (CurrencyCode m)))
    by (now rewrite Z.mul_1_l).
  rewrite addLoop_canonical; [ | lia | assumption | ].
  - rewrite Z2Nat.id by lia. do 2 f_equal. ring.
  - rewrite Z2Nat.id by lia. unfold max64 in *. nia.
Qed.

Example MultiplyInt_three_times :
  MultiplyInt (mmc 2 900000000 "USD") 3 = Returned (mmc 8 700000000 "USD").
Proof. vm_compute. reflexivity. Qed.

(** * The branch taken when the units cancel *)

(** When the units of two valid operands sum to zero and their nanos do
    not, none of the three same-sign tests holds, so [Sum] takes the
    borrow branch for non-positive units: the result has units 1 and,
    unless the nanos sum reaches a whole unit, fails [IsValid]. *)
Lemma Sum_units_cancel_invalid (l r : Money) :
  IsValid l = true -> IsValid r = true -> CurrencyCode l = CurrencyCode r ->
  Units l + Units r = 0 -> Nanos l + Nanos r <> 0 ->
  Nanos l + Nanos r < nanosMod ->
  snd (Sum l r) = None
  /\ Units (fst (Sum l r)) = 1
  /\ IsValid (fst (Sum l r)) = false.
Proof.
  intros Hl Hr Hc HU HN HNp.
  unfold Sum, GetCurrencyCode, GetUnits, GetNanos.
  rewrite Hl, Hr, Hc, String.eqb_refl. cbn [negb orb].
  apply IsValid_spec in Hl, Hr.
  assert (EU : add64 (Units l) (Units r) = 0)
    by (unfold add64; rewrite HU; reflexivity).
  assert (EN : add32 (Nanos l) (Nanos r) = Nanos l + Nanos r)
    by (apply int32_id; unfold_ranges; lia).
  rewrite EU, EN. clear EU EN.
  set (N := Nanos l + Nanos r) in *.
  assert (HNr : -1999999998 <= N <= 1999999998) by (subst N; lia).
  unfold nanosMod in HNp. clearbody N.
  destruct (Z.eqb_spec N 0) as [ | _ ]; [ contradiction | ].
  cbn [Z.eqb Z.ltb Z.compare andb orb fst snd].
  change (add64 0 1) with 1.
  split; [ reflexivity | split; [ reflexivity | ] ].
  apply not_true_is_false. rewrite IsValid_spec. cbn [Units Nanos].
  unfold sub32, int32, wrap, nanosMod.
  change (2 ^ (32 - 1)) with 2147483648.
  change (2 ^ 32) with 4294967296.
  intros (Hsign & Hrange).
  assert (Hneg : 0 < N ->
            (N - 1000000000 + 2147483648) mod 4294967296 - 2147483648 < 0)
    by (intros; Z.to_euclidean_division_equations; lia).
  assert (Hout : N < 0 ->
            ~ -999999999
                <= (N - 1000000000 + 2147483648) mod 4294967296 - 2147483648
                <= 999999999)
    by (intros; Z.to_euclidean_division_equations; lia).
  destruct (Z.lt_trichotomy N 0) as [Hlt | [Heq | Hgt]].
  - now apply Hout.
  - contradiction.
  - specialize (Hneg Hgt). destruct Hsign as [Hs | [Hs | Hs]]; lia.
Qed.

Lemma Sum_units_cancel_invalid_witness :
  snd (Sum (mmc 0 500000000 "USD") (mmc 0 250000000 "USD")) = None
  /\ Units (fst (Sum (mmc 0 500000000 "USD") (mmc 0 250000000 "USD"))) = 1
  /\ IsValid (fst (Sum (mmc 0 500000000 "USD") (mmc 0 250000000 "USD"))) = false.
Proof.
  apply (Sum_units_cancel_invalid
           (mmc 0 500000000 "USD") (mmc 0 250000000 "USD"));
    try reflexivity.
  cbn [Nanos mmc]. discriminate.
Defined.

(** A nanos sum of a whole unit or more lands on the right value all the
    same; a negative one of that size wraps the 32-bit nanos. *)
Example Sum_units_cancel_whole_unit :
  Sum (mm 0 900000000) (mm 0 900000000) = (mm 1 800000000, None)
  /\ Sum (mm 0 (-900000000)) (mm 0 (-900000000)) = (mm 1 1494967296, None).
Proof. vm_compute. split; reflexivity. Qed.

Lemma MultiplyInt_scales_by_n_witness :
  MultiplyInt (mmc 2 900000000 "USD") 3
  = Returned (ofAmount (3 * amount (mmc 2 900000000 "USD")) "USD").
Proof.
  apply (MultiplyInt_scales_by_n (mmc 2 900000000 "USD") 3).
  - reflexivity.
  - left. cbn [Units mmc]. lia.
  - lia.
  - cbn [Units mmc]. unfold max64. lia.
Defined.

(** * Representation and the sign predicates *)

(** A valid value is determined by its amount and its currency code. *)
Theorem valid_representation_unique (a b : Money) :
  IsValid a = true -> IsValid b = true ->
  amount a = amount b -> CurrencyCode a = CurrencyCode b ->
  a = b.
Proof.
  intros Ha Hb Ev Ec.
  rewrite (valid_canonical a Ha), (valid_canonical b Hb), Ev, Ec.
  reflexivity.
Qed.

Lemma valid_representation_unique_witness :
  ofAmount 2500000000 "USD" = mmc 2 500000000 "USD".
Proof.
  apply (valid_representation_unique
           (ofAmount 2500000000 "USD") (mmc 2 500000000 "USD"));
    reflexivity.
Defined.

(** [AreEquals] decides equality of the three fields, valid or not. *)
Lemma AreEquals_iff (l r : Money) : AreEquals l r = true <-> l = r.
Proof.
  unfold AreEquals, GetCurrencyCode, GetUnits, GetNanos.
  rewrite !andb_true_iff, String.eqb_eq, !Z.eqb_eq.
  destruct l as [u n c], r as [u' n' c']; cbn [Units Nanos CurrencyCode].
  split.
  - intros ((-> & ->) & ->). reflexivity.
  - intros E. injection E as -> -> ->. auto.
Qed.

(** On a valid value the three sign predicates read the sign of the
    represented amount. *)
Theorem sign_predicates_read_amount (m : Money) :
  IsValid m = true ->
  (IsZero m = true <-> amount m = 0)
  /\ (IsPositive m = true <-> 0 < amount m)
  /\ (IsNegative m = true <-> amount m < 0).
Proof.
  intros Hv. rewrite IsPositive_spec, IsNegative_spec, Hv.
  apply IsValid_spec in Hv.
  unfold IsZero, GetUnits, GetNanos, amount, nanosMod.
  rewrite andb_true_iff, !Z.eqb_eq.
  repeat split; intros; lia.
Qed.

Lemma sign_predicates_read_amount_witness :
  (IsZero (mm 0 (-5)) = true <-> amount (mm 0 (-5)) = 0)
  /\ (IsPositive (mm 0 (-5)) = true <-> 0 < amount (mm 0 (-5)))
  /\ (IsNegative (mm 0 (-5)) = true <-> amount (mm 0 (-5)) < 0).
Proof.
  apply (sign_predicates_read_amount (mm 0 (-5))). reflexivity.
Defined.

(** On any value, valid or not, no two of the three hold together, and a
    zero value is valid. *)
Theorem sign_predicates_exclusive (m : Money) :
  (IsZero m = true -> IsValid m = true)
  /\ IsZero m && IsPositive m = false
  /\ IsZero m && IsNegative m = false
  /\ IsPositive m && IsNegative m = false.
Proof.
  split.
  - unfold IsZero, GetUnits, GetNanos. rewrite andb_true_iff, !Z.eqb_eq.
    intros (Hu & Hn). apply IsValid_spec. lia.
  - repeat split; apply not_true_is_false;
      rewrite andb_true_iff, ?IsPositive_spec, ?IsNegative_spec;
      unfold IsZero, GetUnits, GetNanos; rewrite ?andb_true_iff, ?Z.eqb_eq;
      lia.
Qed.

(** * Negation *)

Lemma neg64_neg64 (x : Z) : in64 x -> neg64 (neg64 x) = x.
Proof.
  intros H. destruct (Z.eq_dec x min64) as [-> | Hx]; [ reflexivity | ].
  unfold neg64. rewrite (int64_id (- x)) by (unfold_ranges; lia).
  rewrite Z.opp_involutive. now apply int64_id.
Qed.

Lemma neg32_neg32 (x : Z) : in32 x -> neg32 (neg32 x) = x.
Proof.
  intros H. destruct (Z.eq_dec x min32) as [-> | Hx]; [ reflexivity | ].
  unfold neg32. rewrite (int32_id (- x)) by (unfold_ranges; lia).
  rewrite Z.opp_involutive. now apply int32_id.
Qed.

(** Negating twice gives the value back, the most negative units and
    nanos included (they negate to themselves). *)
Theorem Negate_involutive (m : Money) :
  in64 (Units m) -> in32 (Nanos m) -> Negate (Negate m) = m.
Proof.
  intros Hu Hn. destruct m as [u n c].
  unfold Negate, GetUnits, GetNanos, GetCurrencyCode;
    cbn [Units Nanos CurrencyCode] in *.
  now rewrite neg64_neg64, neg32_neg32.
Qed.

Lemma Negate_involutive_witness :
  Negate (Negate (mmc (-9223372036854775808) (-1) "USD"))
  = mmc (-9223372036854775808) (-1) "USD".
Proof.
  apply (Negate_involutive (mmc (-9223372036854775808) (-1) "USD"));
    cbn [Units Nanos mmc]; unfold in64, in32, min64, max64, min32, max32; lia.
Defined.

(** Away from the most negative units and nanos, negation keeps the
    validity status, negates the amount and swaps the sign predicates. *)
Theorem Negate_flips_sign (m : Money) :
  in64 (Units m) -> Units m <> min64 ->
  in32 (Nanos m) -> Nanos m <> min32 ->
  IsValid (Negate m) = IsValid m
  /\ amount (Negate m) = - amount m
  /\ IsZero (Negate m) = IsZero m
  /\ IsPositive (Negate m) = IsNegative m
  /\ IsNegative (Negate m) = IsPositive m.
Proof.
  intros Hu Hmin Hn Hmin32.
  assert (EN : Negate m = mkMoney (- Units m) (- Nanos m) (CurrencyCode m)).
  { unfold Negate, neg64, neg32, GetUnits, GetNanos, GetCurrencyCode.
    rewrite int64_id, int32_id by (unfold_ranges; lia). reflexivity. }
  rewrite EN. clear EN.
  assert (EV : IsValid (mkMoney (- Units m) (- Nanos m) (CurrencyCode m))
               = IsValid m).
  { apply eq_true_iff_eq. rewrite !IsValid_spec. cbn [Units Nanos]. lia. }
  split; [ exact EV | ].
  unfold IsPositive, IsNegative. rewrite EV.
  unfold IsZero, amount, GetUnits, GetNanos; cbn [Units Nanos].
  repeat split; try lia; repeat (f_equal; try lia).
Qed.

Lemma Negate_flips_sign_witness :
  IsValid (Negate (mm 0 2000000000)) = IsValid (mm 0 2000000000)
  /\ amount (Negate (mm 0 2000000000)) = - amount (mm 0 2000000000)
  /\ IsZero (Negate (mm 0 2000000000)) = IsZero (mm 0 2000000000)
  /\ IsPositive (Negate (mm 0 2000000000)) = IsNegative (mm 0 2000000000)
  /\ IsNegative (Negate (mm 0 2000000000)) = IsPositive (mm 0 2000000000).
Proof.
  apply (Negate_flips_sign (mm 0 2000000000));
    cbn [Units Nanos mm mmc]; unfold in64, in32, min64, max64, min32, max32; lia.
Defined.

(** * More on addition *)

Lemma Sum_invalid (l r : Money) :
  IsValid l = false \/ IsValid r = false ->
  Sum l r = (emptyMoney, Some ErrInvalidValue).
Proof.
  intros [H | H]; unfold Sum; rewrite H; cbn [negb orb].
  - reflexivity.
  - now rewrite orb_true_r.
Qed.

Lemma Sum_mismatch (l r : Money) :
  IsValid l = true -> IsValid r = true ->
  CurrencyCode l <> CurrencyCode r ->
  Sum l r = (emptyMoney, Some ErrMismatchingCurrency).
Proof.
  intros Hl Hr Hc. unfold Sum, GetCurrencyCode. rewrite Hl, Hr. cbn [negb orb].
  destruct (String.eqb_spec (CurrencyCode l) (CurrencyCode r));
    [ contradiction | reflexivity ].
Qed.

(** [Sum] succeeds exactly on valid operands that [AreSameCurrency]
    accepts or that both carry no currency code. *)
Theorem Sum_succeeds_iff (l r : Money) :
  snd (Sum l r) = None <->
  IsValid l = true /\ IsValid r = true
  /\ (AreSameCurrency l r = true
      \/ (CurrencyCode l = EmptyString /\ CurrencyCode r = EmptyString)).
Proof.
  unfold AreSameCurrency, GetCurrencyCode.
  rewrite andb_true_iff, negb_true_iff, String.eqb_eq.
  destruct (IsValid l) eqn:Hl; [ destruct (IsValid r) eqn:Hr | ].
  - destruct (string_dec (CurrencyCode l) (CurrencyCode r)) as [E | E].
    + destruct (Sum_checks_passed l r Hl Hr E) as (u & n & ->). cbn [snd].
      split; [ intros _ | reflexivity ]. repeat split.
      destruct (String.eqb_spec (CurrencyCode l) EmptyString) as [El | El].
      * right. split; congruence.
      * left. split; [ exact E | reflexivity ].
    + rewrite (Sum_mismatch l r Hl Hr E). cbn [snd].
      split; [ discriminate | ].
      intros (_ & _ & [(E' & _) | (El & Er)]); congruence.
  - rewrite Sum_invalid by auto.
    split; [ discriminate | intros (_ & H & _); discriminate ].
  - rewrite Sum_invalid by auto.
    split; [ discriminate | intros (H & _); discriminate ].
Qed.

(** On an error [Sum] returns the empty value ([&pb.Money{}]); on success
    the result carries the operands' common currency code. *)
Theorem Sum_result_on_error_and_success (l r : Money) :
  (snd (Sum l r) <> None -> fst (Sum l r) = emptyMoney)
  /\ (snd (Sum l r) = None ->
      CurrencyCode (fst (Sum l r)) = CurrencyCode l
      /\ CurrencyCode (fst (Sum l r)) = CurrencyCode r).
Proof.
  destruct (IsValid l) eqn:Hl; [ destruct (IsValid r) eqn:Hr | ].
  - destruct (string_dec (CurrencyCode l) (CurrencyCode r)) as [E | E].
    + destruct (Sum_checks_passed l r Hl Hr E) as (u & n & ->).
      cbn [fst snd CurrencyCode]. split; [ congruence | auto ].
    + rewrite (Sum_mismatch l r Hl Hr E). cbn [fst snd].
      split; [ reflexivity | discriminate ].
  - rewrite Sum_invalid by auto. cbn [fst snd].
    split; [ reflexivity | discriminate ].
  - rewrite Sum_invalid by auto. cbn [fst snd].
    split; [ reflexivity | discriminate ].
Qed.

(** The result of [Sum] on the branch taken when the units cancel and the
    nanos do not. *)
Lemma Sum_units_cancel (l r : Money) :
  IsValid l = true -> IsValid r = true -> CurrencyCode l = CurrencyCode r ->
  Units l + Units r = 0 -> Nanos l + Nanos r <> 0 ->
  Sum l r
  = (mkMoney 1 (int32 (Nanos l + Nanos r - nanosMod)) (CurrencyCode l), None).
Proof.
  intros Hl Hr Hc HU HN.
  unfold Sum, GetCurrencyCode, GetUnits, GetNanos.
  rewrite Hl, Hr, Hc, String.eqb_refl. cbn [negb orb].
  apply IsValid_spec in Hl, Hr.
  assert (EU : add64 (Units l) (Units r) = 0)
    by (unfold add64; rewrite HU; reflexivity).
  assert (EN : add32 (Nanos l) (Nanos r) = Nanos l + Nanos r)
    by (apply int32_id; unfold_ranges; lia).
  rewrite EU, EN. clear EU EN.
  destruct (Z.eqb_spec (Nanos l + Nanos r) 0) as [ | _ ]; [ contradiction | ].
  reflexivity.
Qed.

(** [Sum] adds the represented amounts: on every branch, the one for
    cancelled units included, as long as the 64-bit unit additions do not
    overflow and the 32-bit nanos do not wrap on that branch. *)
Theorem Sum_adds_amounts (l r : Money) :
  IsValid l = true -> IsValid r = true -> CurrencyCode l = CurrencyCode r ->
  in64 (Units l + Units r) ->
  in64 (Units l + Units r + Z.quot (Nanos l + Nanos r) nanosMod) ->
  Units l + Units r <> 0 \/ min32 + nanosMod <= Nanos l + Nanos r ->
  amount (fst (Sum l r)) = amount l + amount r.
Proof.
  intros Hl Hr Hc HU HC Hw.
  destruct (Z.eq_dec (Units l + Units r) 0) as [U0 | U0];
    [ destruct (Z.eq_dec (Nanos l + Nanos r) 0) as [N0 | N0] | ].
  - rewrite Sum_exact by auto. apply amount_ofAmount.
  - rewrite Sum_units_cancel by assumption. cbn [fst].
    pose proof (Hl' := Hl). pose proof (Hr' := Hr).
    apply IsValid_spec in Hl', Hr'.
    unfold amount; cbn [Units Nanos].
    rewrite int32_id by (unfold_ranges; lia).
    unfold nanosMod. lia.
  - rewrite Sum_exact by auto. apply amount_ofAmount.
Qed.

Lemma Sum_adds_amounts_witness :
  amount (fst (Sum (mmc 0 500000000 "USD") (mmc 0 250000000 "USD")))
  = amount (mmc 0 500000000 "USD") + amount (mmc 0 250000000 "USD").
Proof.
  apply (Sum_adds_amounts (mmc 0 500000000 "USD") (mmc 0 250000000 "USD"));
    try reflexivity; cbn [Units Nanos mmc]; vm_compute;
    try (split; discriminate).
  right. discriminate.
Defined.

(** Zero is a two-sided identity of [Sum] on valid values with nonzero
    units (or zero nanos). *)
Theorem Sum_zero_identity (m : Money) :
  IsValid m = true -> in64 (Units m) ->
  Units m <> 0 \/ Nanos m = 0 ->
  Sum m (mkMoney 0 0 (CurrencyCode m)) = (m, None)
  /\ Sum (mkMoney 0 0 (CurrencyCode m)) m = (m, None).
Proof.
  intros Hv Hu Hnz.
  pose proof (Hv' := Hv). apply IsValid_spec in Hv'.
  assert (Hq : Z.quot (Nanos m) nanosMod = 0)
    by (unfold nanosMod; Z.to_euclidean_division_equations; lia).
  assert (Hz : forall c, amount (mkMoney 0 0 c) = 0) by reflexivity.
  split; rewrite Sum_exact; cbn [Units Nanos CurrencyCode];
    rewrite ?Hz, ?Z.add_0_r, ?Z.add_0_l, ?Hq, ?Z.add_0_r;
    try assumption; try reflexivity;
    now rewrite <- valid_canonical.
Qed.

Lemma Sum_zero_identity_witness :
  Sum (mmc (-2) (-100000000) "USD") (mkMoney 0 0 "USD")
  = (mmc (-2) (-100000000) "USD", None)
  /\ Sum (mkMoney 0 0 "USD") (mmc (-2) (-100000000) "USD")
     = (mmc (-2) (-100000000) "USD", None).
Proof.
  apply (Sum_zero_identity (mmc (-2) (-100000000) "USD")).
  - reflexivity.
  - vm_compute. split; discriminate.
  - left. discriminate.
Defined.

(** Three values whose units are all positive, or all negative, can be
    added in either grouping with the same result, as long as the units
    leave room for the carries. *)
Theorem Sum_assoc_same_sign (a b c : Money) :
  IsValid a = true -> IsValid b = true -> IsValid c = true ->
  CurrencyCode a = CurrencyCode b -> CurrencyCode b = CurrencyCode c ->
  (0 < Units a /\ 0 < Units b /\ 0 < Units c)
  \/ (Units a < 0 /\ Units b < 0 /\ Units c < 0) ->
  min64 <= Units a + Units b + Units c - 2 ->
  Units a + Units b + Units c + 2 <= max64 ->
  exists ab bc abc,
    Sum a b = (ab, None) /\ Sum b c = (bc, None)
    /\ Sum ab c = (abc, None) /\ Sum a bc = (abc, None).
Proof.
  intros Ha Hb Hc Eab Ebc Hsign Hlo Hhi.
  pose proof (Ha' := Ha). pose proof (Hb' := Hb). pose proof (Hc' := Hc).
  apply IsValid_spec in Ha', Hb', Hc'.
  exists (ofAmount (amount a + amount b) (CurrencyCode a)),
         (ofAmount (amount b + amount c) (CurrencyCode b)),
         (ofAmount (amount a + amount b + amount c) (CurrencyCode a)).
  assert (Sab : Sum a b = (ofAmount (amount a + amount b) (CurrencyCode a), None)).
  { apply Sum_exact; try assumption; unfold_ranges;
      Z.to_euclidean_division_equations; lia. }
  assert (Sbc : Sum b c = (ofAmount (amount b + amount c) (CurrencyCode b), None)).
  { apply Sum_exact; try assumption; unfold_ranges;
      Z.to_euclidean_division_equations; lia. }
  split; [ exact Sab | split; [ exact Sbc | split ] ].
  - rewrite Sum_exact; try apply ofAmount_valid; try assumption.
    + now rewrite amount_ofAmount.
    + cbn [ofAmount CurrencyCode]. congruence.
    + unfold ofAmount, amount; cbn [Units Nanos]; unfold_ranges.
      Z.to_euclidean_division_equations; lia.
    + unfold ofAmount, amount; cbn [Units Nanos]; unfold_ranges.
      Z.to_euclidean_division_equations; lia.
    + unfold ofAmount, amount; cbn [Units Nanos]; unfold_ranges.
      Z.to_euclidean_division_equations; lia.
  - rewrite Sum_exact; try apply ofAmount_valid; try assumption.
    + rewrite amount_ofAmount. now rewrite Z.add_assoc.
    + unfold ofAmount, amount; cbn [Units Nanos]; unfold_ranges.
      Z.to_euclidean_division_equations; lia.
    + unfold ofAmount, amount; cbn [Units Nanos]; unfold_ranges.
      Z.to_euclidean_division_equations; lia.
    + unfold ofAmount, amount; cbn [Units Nanos]; unfold_ranges.
      Z.to_euclidean_division_equations; lia.
Qed.

Lemma Sum_assoc_same_sign_witness :
  exists ab bc abc,
    Sum (mmc 1 600000000 "USD") (mmc 2 700000000 "USD") = (ab, None)
    /\ Sum (mmc 2 700000000 "USD") (mmc 3 800000000 "USD") = (bc, None)
    /\ Sum ab (mmc 3 800000000 "USD") = (abc, None)
    /\ Sum (mmc 1 600000000 "USD") bc = (abc, None).
Proof.
  apply (Sum_assoc_same_sign
           (mmc 1 600000000 "USD") (mmc 2 700000000 "USD")
           (mmc 3 800000000 "USD"));
    try reflexivity; cbn [Units mmc]; unfold min64, max64; lia.
Defined.

(** Without the sign condition the grouping matters: the left grouping
    meets the cancelled-units branch, the right one does not. *)
Example Sum_grouping_matters :
  Sum (fst (Sum (mm 1 0) (mm (-1) 0))) (mm 0 5) = (mm 1 (-999999995), None)
  /\ Sum (mm 1 0) (fst (Sum (mm (-1) 0) (mm 0 5))) = (mm 0 5, None).
Proof. vm_compute. split; reflexivity. Qed.

(** * Panics of the repeated additions *)

Lemma addLoop_step (k : nat) (out m : Money) :
  addLoop (S (S k)) out m = (out' <- Must (Sum out m) ;; addLoop (S k) out' m).
Proof. reflexivity. Qed.

Lemma Must_Sum_invalid (l r : Money) :
  IsValid l = false \/ IsValid r = false ->
  Must (Sum l r) = Panicked (PanicError ErrInvalidValue).
Proof. intros H. now rewrite Sum_invalid. Qed.

(** The nanos left by the borrow branch at units 1 never make a valid
    value when the nanos sum is nonzero and below a whole unit. *)
Lemma borrowed_nanos_invalid (N : Z) (c : string) :
  -1999999998 <= N -> N <> 0 -> N < nanosMod ->
  IsValid (mkMoney 1 (int32 (N - nanosMod)) c) = false.
Proof.
  intros Hlo Hnz Hhi.
  apply not_true_is_false. rewrite IsValid_spec. cbn [Units Nanos].
  unfold int32, wrap, nanosMod in *.
  change (2 ^ (32 - 1)) with 2147483648.
  change (2 ^ 32) with 4294967296.
  intros (Hsign & Hrange).
  assert (Hneg : 0 < N ->
            (N - 1000000000 + 2147483648) mod 4294967296 - 2147483648 < 0)
    by (intros; Z.to_euclidean_division_equations; lia).
  assert (Hout : N < 0 ->
            ~ -999999999
                <= (N - 1000000000 + 2147483648) mod 4294967296 - 2147483648
                <= 999999999)
    by (intros; Z.to_euclidean_division_equations; lia).
  destruct (Z.lt_trichotomy N 0) as [Hlt | [Heq | Hgt]].
  - now apply Hout.
  - contradiction.
  - specialize (Hneg Hgt). destruct Hsign as [Hs | [Hs | Hs]]; lia.
Qed.

(** With an invalid [m] and a count of 2 or more, the first addition
    fails and [Must] panics with [ErrInvalidValue], in both loops. *)
Theorem repeated_addition_panics_on_invalid (m : Money) (n : Z) :
  IsValid m = false -> 2 <= n ->
  MultiplyInt m n = Panicked (PanicError ErrInvalidValue)
  /\ DivideInt m n = Panicked (PanicError ErrInvalidValue).
Proof.
  intros Hv Hn. unfold MultiplyInt, DivideInt.
  replace (Z.to_nat n) with (S (S (Z.to_nat (n - 2)))) by lia.
  rewrite !addLoop_step, !Must_Sum_invalid by auto.
  split; reflexivity.
Qed.

Lemma repeated_addition_panics_on_invalid_witness :
  MultiplyInt (mm 1 (-1)) 2 = Panicked (PanicError ErrInvalidValue)
  /\ DivideInt (mm 1 (-1)) 2 = Panicked (PanicError ErrInvalidValue).
Proof.
  apply (repeated_addition_panics_on_invalid (mm 1 (-1)) 2).
  - reflexivity.
  - lia.
Defined.

(** A valid amount below one unit makes the loops panic: the second
    addition of [MultiplyInt] (for an amount below half a unit or
    negative) and the third addition of [DivideInt] receive the invalid
    value that [Sum] returned on its cancelled-units branch. *)
Theorem repeated_addition_panics_below_one_unit (m : Money) (n : Z) :
  IsValid m = true -> Units m = 0 -> Nanos m <> 0 ->
  (Nanos m < 500000000 -> 3 <= n ->
   MultiplyInt m n = Panicked (PanicError ErrInvalidValue))
  /\ (4 <= n -> DivideInt m n = Panicked (PanicError ErrInvalidValue)).
Proof.
  intros Hv Hu Hn.
  pose proof (Hv' := Hv). apply IsValid_spec in Hv'.
  split.
  - intros Hhalf H3. unfold MultiplyInt.
    replace (Z.to_nat n) with (S (S (S (Z.to_nat (n - 3))))) by lia.
    rewrite addLoop_step.
    rewrite Sum_units_cancel by (auto; lia).
    cbn [Must fst snd bind].
    rewrite addLoop_step, Must_Sum_invalid; [ reflexivity | ].
    left. apply borrowed_nanos_invalid; unfold nanosMod; lia.
  - intros H4. unfold DivideInt.
    replace (Z.to_nat n) with (S (S (S (S (Z.to_nat (n - 4)))))) by lia.
    assert (EN : Negate m = mkMoney 0 (- Nanos m) (CurrencyCode m)).
    { unfold Negate, GetUnits, GetNanos, GetCurrencyCode, neg32.
      rewrite Hu, int32_id by (unfold_ranges; lia). reflexivity. }
    assert (VN : IsValid (mkMoney 0 (- Nanos m) (CurrencyCode m)) = true)
      by (apply IsValid_spec; cbn [Units Nanos]; lia).
    rewrite EN, addLoop_step.
    rewrite Sum_exact; cbn [Units Nanos CurrencyCode]; try assumption;
      try reflexivity;
      [ | right; lia | rewrite Hu; unfold_ranges; lia
        | rewrite Hu; replace (- Nanos m + Nanos m) with 0 by lia;
          unfold_ranges; cbn; lia ].
    replace (amount (mkMoney 0 (- Nanos m) (CurrencyCode m)) + amount m)
      with 0 by (unfold amount; cbn [Units Nanos]; lia).
    cbn [Must fst snd bind]. rewrite addLoop_step.
    change (ofAmount 0 (CurrencyCode m)) with (mkMoney 0 0 (CurrencyCode m)).
    rewrite Sum_units_cancel;
      cbn [Units Nanos CurrencyCode]; try assumption; try reflexivity;
      try lia.
    cbn [Must fst snd bind].
    rewrite addLoop_step, Must_Sum_invalid; [ reflexivity | ].
    left. apply borrowed_nanos_invalid; unfold nanosMod; lia.
Qed.

Lemma repeated_addition_panics_below_one_unit_witness :
  MultiplyInt (mmc 0 250000000 "USD") 3 = Panicked (PanicError ErrInvalidValue)
  /\ DivideInt (mmc 0 250000000 "USD") 4 = Panicked (PanicError ErrInvalidValue).
Proof.
  destruct (repeated_addition_panics_below_one_unit (mmc 0 250000000 "USD") 3)
    as (HM & _); [ reflexivity | reflexivity | discriminate | ].
  destruct (repeated_addition_panics_below_one_unit (mmc 0 250000000 "USD") 4)
    as (_ & HD); [ reflexivity | reflexivity | discriminate | ].
  split.
  - apply HM; [ reflexivity | lia ].
  - apply HD. lia.
Defined.

(** * The fast path in terms of amounts *)

Lemma encode_wrapped (units nanos : Z) :
  in32 nanos ->
  unitsAndNanoPartToMicros units nanos
  = int64 (units * 100 + Z.quot nanos 10000000).
Proof.
  intros Hn. unfold unitsAndNanoPartToMicros, add64, mul64.
  rewrite quo32_small by (assumption || lia).
  apply int64_add_idemp.
Qed.

(** On a valid value the encode step gives the amount in cents. *)
Lemma ToInt_cents (m : Money) :
  IsValid m = true -> in64 (cents m) -> ToInt m = cents m.
Proof.
  intros Hv Hc. pose proof (Hv' := Hv). apply IsValid_spec in Hv'.
  unfold ToInt, GetUnits, GetNanos.
  rewrite encode_wrapped by (unfold_ranges; lia).
  assert (E : Units m * 100 + Z.quot (Nanos m) 10000000 = cents m).
  { unfold cents, amount, nanosMod.
    Z.to_euclidean_division_equations; lia. }
  rewrite E. now apply int64_id.
Qed.

(** The decode step gives the canonical form of the scaled integer times
    100,000 nanos: one scaled integer is a ten-thousandth of a unit. *)
Lemma toGoogleMoney_ofAmount (s : Z) (c : string) :
  in64 s -> toGoogleMoney s c = ofAmount (s * 100000) c.
Proof.
  intros Hs. unfold toGoogleMoney, microsToUnitsAndNanoPart, ofAmount.
  rewrite quo64_small by (assumption || lia).
  assert (R : -10000 < Z.rem s 10000 < 10000)
    by (Z.to_euclidean_division_equations; lia).
  unfold rem64, mul32.
  rewrite (int64_id (Z.rem s 10000)) by (unfold_ranges; lia).
  rewrite (int32_id (Z.rem s 10000)) by (unfold_ranges; lia).
  rewrite int32_id by (unfold_ranges; lia).
  unfold nanosMod.
  f_equal; Z.to_euclidean_division_equations; lia.
Qed.

(** Every value the fast path returns is valid and carries the currency
    code of the left operand, whatever the operands are. *)
Theorem fast_path_results_valid (l r : Money) (k : Z) :
  (IsValid (MultipleFast l r) = true
   /\ CurrencyCode (MultipleFast l r) = CurrencyCode l)
  /\ (IsValid (MultipleFastInt l k) = true
      /\ CurrencyCode (MultipleFastInt l k) = CurrencyCode l)
  /\ (forall out, DivideFast l r = Returned out ->
      IsValid out = true /\ CurrencyCode out = CurrencyCode l)
  /\ (forall out, DivideFastInt l k = Returned out ->
      IsValid out = true /\ CurrencyCode out = CurrencyCode l).
Proof.
  assert (V : forall s c, IsValid (toGoogleMoney (int64 s) c) = true
                          /\ CurrencyCode (toGoogleMoney (int64 s) c) = c).
  { intros s c. rewrite toGoogleMoney_ofAmount by apply int64_range.
    split; [ apply ofAmount_valid | reflexivity ]. }
  split; [ | split; [ | split ] ].
  - apply V.
  - apply V.
  - unfold DivideFast, div64. intros out.
    destruct (_ =? 0); cbn [bind]; [ discriminate | ].
    intros E. injection E as <-. apply V.
  - unfold DivideFastInt, div64. intros out.
    destruct (k =? 0); cbn [bind]; [ discriminate | ].
    intros E. injection E as <-. apply V.
Qed.

(** Decoding and encoding again divides the scaled integer by 100. *)
Theorem encode_after_decode (s : Z) (c : string) :
  in64 s -> ToInt (toGoogleMoney s c) = Z.quot s 100.
Proof.
  intros Hs.
  rewrite ToInt_cents; rewrite toGoogleMoney_ofAmount by assumption.
  - unfold cents. rewrite amount_ofAmount.
    Z.to_euclidean_division_equations; lia.
  - apply ofAmount_valid.
  - unfold cents. rewrite amount_ofAmount.
    unfold_ranges. Z.to_euclidean_division_equations; lia.
Qed.

Lemma encode_after_decode_witness :
  ToInt (toGoogleMoney 59199 "USD") = Z.quot 59199 100.
Proof.
  apply (encode_after_decode 59199 "USD"). vm_compute. split; discriminate.
Defined.

(** Encoding a valid value and decoding again gives its cents read as
    ten-thousandths: the value truncated to cents and divided by 100. *)
Theorem decode_after_encode (m : Money) :
  IsValid m = true -> in64 (cents m) ->
  toGoogleMoney (ToInt m) (CurrencyCode m)
  = ofAmount (Z.quot (amount m) 10000000 * 100000) (CurrencyCode m).
Proof.
  intros Hv Hc. rewrite ToInt_cents by assumption.
  now apply toGoogleMoney_ofAmount.
Qed.

Lemma decode_after_encode_witness :
  toGoogleMoney (ToInt (mmc 5 919999999 "USD")) "USD"
  = ofAmount (Z.quot (amount (mmc 5 919999999 "USD")) 10000000 * 100000) "USD".
Proof.
  apply (decode_after_encode (mmc 5 919999999 "USD")).
  - reflexivity.
  - vm_compute. split; discriminate.
Defined.

(** [MultipleFast] multiplies the two amounts in cents and decodes the
    product, which is then in ten-thousandths: the product of the
    operands truncated to cents.  [DivideFast] decodes the integer
    quotient of the cents the same way. *)
Theorem fast_path_by_money (l r : Money) :
  IsValid l = true -> IsValid r = true ->
  in64 (cents l) -> in64 (cents r) ->
  (in64 (cents l * cents r) ->
   MultipleFast l r = ofAmount (cents l * cents r * 100000) (CurrencyCode l))
  /\ (cents r <> 0 -> in64 (Z.quot (cents l) (cents r)) ->
      DivideFast l r
      = Returned (ofAmount (Z.quot (cents l) (cents r) * 100000)
                           (CurrencyCode l))).
Proof.
  intros Hl Hr Hcl Hcr.
  pose proof (ToInt_cents l Hl Hcl) as El.
  pose proof (ToInt_cents r Hr Hcr) as Er.
  unfold ToInt, GetUnits, GetNanos in El, Er.
  split.
  - intros Hp. unfold MultipleFast. rewrite El, Er.
    unfold mul64. rewrite int64_id by assumption.
    now apply toGoogleMoney_ofAmount.
  - intros Hnz Hq. unfold DivideFast, div64. rewrite El, Er.
    destruct (Z.eqb_spec (cents r) 0); [ contradiction | ].
    cbn [bind]. unfold quo64. rewrite int64_id by assumption.
    f_equal. now apply toGoogleMoney_ofAmount.
Qed.

Lemma fast_path_by_money_witness :
  MultipleFast (mmc 2 500000000 "USD") (mmc 3 0 "USD")
  = ofAmount (cents (mmc 2 500000000 "USD") * cents (mmc 3 0 "USD") * 100000) "USD"
  /\ DivideFast (mmc 2 500000000 "USD") (mmc 0 500000000 "USD")
     = Returned (ofAmount (Z.quot (cents (mmc 2 500000000 "USD"))
                                  (cents (mmc 0 500000000 "USD")) * 100000)
                          "USD").
Proof.
  assert (R : forall x, (min64 <=? x) && (x <=? max64) = true -> in64 x)
    by (unfold in64; intros x; rewrite andb_true_iff; lia).
  split.
  - apply (proj1 (fast_path_by_money
                    (mmc 2 500000000 "USD") (mmc 3 0 "USD") eq_refl eq_refl
                    (R (cents (mmc 2 500000000 "USD")) eq_refl)
                    (R (cents (mmc 3 0 "USD")) eq_refl))).
    apply R. reflexivity.
  - apply (proj2 (fast_path_by_money
                    (mmc 2 500000000 "USD") (mmc 0 500000000 "USD")
                    eq_refl eq_refl
                    (R (cents (mmc 2 500000000 "USD")) eq_refl)
                    (R (cents (mmc 0 500000000 "USD")) eq_refl))).
    + vm_compute. discriminate.
    + apply R. reflexivity.
Defined.

(** With a plain integer the cents are multiplied or divided and then
    decoded as ten-thousandths, so the result is the product or quotient
    divided by 100: 5.00 times 3 gives 0.15. *)
Theorem fast_path_by_int (l : Money) (k : Z) :
  IsValid l = true -> in64 (cents l) ->
  (in64 (cents l * k) ->
   MultipleFastInt l k = ofAmount (cents l * k * 100000) (CurrencyCode l))
  /\ (k <> 0 -> in64 (Z.quot (cents l) k) ->
      DivideFastInt l k
      = Returned (ofAmount (Z.quot (cents l) k * 100000) (CurrencyCode l))).
Proof.
  intros Hl Hcl.
  pose proof (ToInt_cents l Hl Hcl) as El.
  unfold ToInt, GetUnits, GetNanos in El.
  split.
  - intros Hp. unfold MultipleFastInt. rewrite El.
    unfold mul64. rewrite int64_id by assumption.
    now apply toGoogleMoney_ofAmount.
  - intros Hnz Hq. unfold DivideFastInt, div64. rewrite El.
    destruct (Z.eqb_spec k 0); [ contradiction | ].
    cbn [bind]. unfold quo64. rewrite int64_id by assumption.
    f_equal. now apply toGoogleMoney_ofAmount.
Qed.

Lemma fast_path_by_int_witness :
  MultipleFastInt (mmc 5 0 "USD") 3 = mmc 0 150000000 "USD"
  /\ DivideFastInt (mmc 5 0 "USD") 2 = Returned (mmc 0 25000000 "USD").
Proof.
  assert (R : forall x, (min64 <=? x) && (x <=? max64) = true -> in64 x)
    by (unfold in64; intros x; rewrite andb_true_iff; lia).
  split.
  - apply (proj1 (fast_path_by_int (mmc 5 0 "USD") 3 eq_refl
                    (R (cents (mmc 5 0 "USD")) eq_refl))).
    apply R. reflexivity.
  - apply (proj2 (fast_path_by_int (mmc 5 0 "USD") 2 eq_refl
                    (R (cents (mmc 5 0 "USD")) eq_refl))).
    + discriminate.
    + apply R. reflexivity.
Defined.

(** Dividing a value by itself on the fast path gives one ten-thousandth
    of a unit, whatever the value, as long as its scaled integer is not
    zero. *)
Theorem DivideFast_by_itself (l : Money) :
  ToInt l <> 0 ->
  DivideFast l l = Returned (mkMoney 0 100000 (CurrencyCode l)).
Proof.
  unfold ToInt, GetUnits, GetNanos, DivideFast, div64. intros Hnz.
  destruct (Z.eqb_spec (unitsAndNanoPartToMicros (Units l) (Nanos l)) 0);
    [ contradiction | ].
  cbn [bind]. unfold quo64. rewrite Z.quot_same by assumption.
  reflexivity.
Qed.

Lemma DivideFast_by_itself_witness :
  DivideFast (mmc 7 250000000 "USD") (mmc 7 250000000 "USD")
  = Returned (mkMoney 0 100000 "USD").
Proof.
  apply (DivideFast_by_itself (mmc 7 250000000 "USD")).
  vm_compute. discriminate.
Defined.

(** * The micro-unit helpers *)

(** Splitting a micro amount into units and micro part and joining them
    again gives the amount back, for every [int64]. *)
Theorem micros_split_join (micros : Z) :
  in64 micros ->
  unitsAndMicroPartToMicros (fst (microsToUnitsAndMicroPart micros))
                            (snd (microsToUnitsAndMicroPart micros))
  = micros.
Proof.
  intros Hm. unfold microsToUnitsAndMicroPart, unitsAndMicroPartToMicros,
    unitsToMicros, add64, mul64, rem64. cbn [fst snd].
  rewrite quo64_small by (assumption || lia).
  rewrite (int64_id (Z.rem micros 1000000))
    by (unfold_ranges; Z.to_euclidean_division_equations; lia).
  rewrite (int64_id (Z.quot micros 1000000 * 1000000))
    by (unfold_ranges; Z.to_euclidean_division_equations; lia).
  rewrite <- (int64_id micros Hm) at 3. f_equal.
  Z.to_euclidean_division_equations; lia.
Qed.

Lemma micros_split_join_witness :
  unitsAndMicroPartToMicros (fst (microsToUnitsAndMicroPart (-9223372036854775808)))
                            (snd (microsToUnitsAndMicroPart (-9223372036854775808)))
  = -9223372036854775808.
Proof.
  apply (micros_split_join (-9223372036854775808)).
  vm_compute. split; discriminate.
Defined.

(** Joining units and a micro part and splitting again gives the pair
    back when the micro part is below one unit in magnitude, agrees in
    sign with the units and the joined amount fits an [int64]. *)
Theorem micros_join_split (units micros : Z) :
  -1000000 < micros < 1000000 ->
  micros = 0 \/ units = 0 \/ (micros < 0 <-> units < 0) ->
  in64 (units * 1000000 + micros) ->
  microsToUnitsAndMicroPart (unitsAndMicroPartToMicros units micros)
  = (units, micros).
Proof.
  intros Hm Hs Hfit.
  assert (E : unitsAndMicroPartToMicros units micros = units * 1000000 + micros).
  { unfold unitsAndMicroPartToMicros, unitsToMicros, add64, mul64.
    rewrite <- (int64_id micros) at 1 by (unfold_ranges; lia).
    rewrite int64_add_idemp. now apply int64_id. }
  rewrite E. unfold microsToUnitsAndMicroPart, rem64.
  rewrite quo64_small by (assumption || lia).
  rewrite int64_id by (unfold_ranges; Z.to_euclidean_division_equations; lia).
  f_equal; Z.to_euclidean_division_equations; lia.
Qed.

Lemma micros_join_split_witness :
  microsToUnitsAndMicroPart (unitsAndMicroPartToMicros (-3) (-250000))
  = (-3, -250000).
Proof.
  apply (micros_join_split (-3) (-250000)).
  - lia.
  - right; right. lia.
  - vm_compute. split; discriminate.
Defined.

(** * More on formatting *)

Lemma append_assoc' (a b c : string) : (a ++ b) ++ c = a ++ (b ++ c).
Proof. induction a as [ | x a IH ]; cbn; [ | rewrite IH ]; reflexivity. Qed.

(** The digits of a reversed-and-appended number, as text. *)
Lemma string_of_revapp (a b : Decimal.uint) :
  NilEmpty.string_of_uint (Decimal.revapp a b)
  = NilEmpty.string_of_uint (Decimal.revapp a Decimal.Nil)
    ++ NilEmpty.string_of_uint b.
Proof.
  revert b. induction a as [ | a IH | a IH | a IH | a IH | a IH | a IH
                             | a IH | a IH | a IH | a IH ]; intros b;
    cbn [Decimal.revapp]; [ reflexivity | .. ];
    rewrite IH; symmetry; rewrite IH; symmetry;
    rewrite append_assoc'; reflexivity.
Qed.

Lemma to_uint_tenfold (p : positive) :
  Pos.to_uint (10 * p)
  = Decimal.app (Pos.to_uint p) (Decimal.D0 Decimal.Nil).
Proof.
  unfold Pos.to_uint, Decimal.app. rewrite DecimalFacts.rev_rev.
  change (Pos.to_little_uint (10 * p))
    with (Unsigned.to_lu (10 * N.pos p)).
  rewrite Unsigned.to_ldec_tenfold. reflexivity.
Qed.

Lemma string_of_to_uint_tenfold (p : positive) :
  NilZero.string_of_uint (Pos.to_uint (10 * p))
  = NilZero.string_of_uint (Pos.to_uint p) ++ "0".
Proof.
  assert (NZ : forall q, NilZero.string_of_uint (Pos.to_uint q)
                         = NilEmpty.string_of_uint (Pos.to_uint q)).
  { intros q. pose proof (Unsigned.to_uint_nonnil q).
    destruct (Pos.to_uint q); [ contradiction | reflexivity .. ]. }
  rewrite !NZ, to_uint_tenfold. unfold Decimal.app.
  rewrite string_of_revapp.
  change (Decimal.revapp (Decimal.rev (Pos.to_uint p)) Decimal.Nil)
    with (Decimal.rev (Decimal.rev (Pos.to_uint p))).
  rewrite DecimalFacts.rev_rev. reflexivity.
Qed.

(** A nonzero number times ten prints as the number followed by a zero. *)
Lemma Itoa_tenfold (n : Z) : n <> 0 -> Fmt.Itoa (10 * n) = Fmt.Itoa n ++ "0".
Proof.
  intros Hn. unfold Fmt.Itoa.
  destruct n as [ | p | p ]; [ contradiction | | ].
  - change (10 * Z.pos p) with (Z.pos (10 * p)).
    cbn [Z.to_int NilZero.string_of_int]. apply string_of_to_uint_tenfold.
  - change (10 * Z.neg p) with (Z.neg (10 * p)).
    cbn [Z.to_int NilZero.string_of_int].
    rewrite string_of_to_uint_tenfold. reflexivity.
Qed.

(** A trailing character of the cutset is trimmed away. *)
Lemma TrimRight_snoc (s cutset : string) (c : ascii) :
  Fmt.inCutset c cutset = true ->
  Fmt.TrimRight (s ++ String c EmptyString) cutset = Fmt.TrimRight s cutset.
Proof.
  intros Hc. induction s as [ | a s IH ]; cbn [append Fmt.TrimRight].
  - now rewrite Hc.
  - now rewrite IH.
Qed.

Lemma fractionText_tenfold (n : Z) :
  n <> 0 -> fractionText (10 * n) = fractionText n.
Proof.
  intros Hn. unfold fractionText.
  rewrite Itoa_tenfold by assumption.
  now rewrite TrimRight_snoc by reflexivity.
Qed.

(** Nanos that differ by a factor of ten render the same: half a unit,
    a twentieth and five billionths all give the fraction text ["50"]. *)
Theorem ToStringDollars_tenfold_nanos (units nanos : Z) (c c' : string) :
  nanos <> 0 ->
  ToStringDollars (mkMoney units (10 * nanos) c)
  = ToStringDollars (mkMoney units nanos c').
Proof.
  intros Hn. rewrite !ToStringDollars_shape. cbn [Units Nanos].
  now rewrite fractionText_tenfold.
Qed.

Lemma ToStringDollars_tenfold_nanos_witness :
  ToStringDollars (mkMoney 5 (10 * 50000000) "USD")
  = ToStringDollars (mkMoney 5 50000000 "USD").
Proof.
  apply (ToStringDollars_tenfold_nanos 5 50000000 "USD" "USD"). discriminate.
Defined.

(** The fraction text always has at least two characters. *)
Theorem fractionText_at_least_two (nanos : Z) :
  (2 <= String.length (fractionText nanos))%nat.
Proof.
  unfold fractionText.
  destruct (Fmt.TrimRight (Fmt.Itoa nanos) "0") as [ | a [ | b s ] ];
    cbn; lia.
Qed.

(** For negative nanos the fraction text starts with a minus sign: the
    sign of [nanos] is printed after the dot. *)
Theorem fractionText_negative (nanos : Z) :
  nanos < 0 -> exists t, fractionText nanos = String "-" t.
Proof.
  intros Hn. destruct nanos as [ | p | p ]; try lia.
  unfold fractionText, Fmt.Itoa.
  cbn [Z.to_int NilZero.string_of_int].
  set (digits := NilZero.string_of_uint (Pos.to_uint p)).
  assert (E : Fmt.TrimRight (String "-" digits) "0"
              = String "-" (Fmt.TrimRight digits "0")).
  { cbn [Fmt.TrimRight]. destruct (Fmt.TrimRight digits "0"); reflexivity. }
  rewrite E. cbn [String.eqb Ascii.eqb].
  destruct (Nat.eqb _ 1); cbn [append]; eauto.
Qed.

Lemma fractionText_negative_witness :
  exists t, fractionText (-910000000) = String "-" t.
Proof. apply (fractionText_negative (-910000000)). lia. Defined.

(** * How the operations compose *)

(** Adding [b] and then its negation gives [a] back, for values with
    positive units and room for one carry. *)
Theorem Sum_then_Negate_restores (a b : Money) :
  IsValid a = true -> IsValid b = true -> CurrencyCode a = CurrencyCode b ->
  0 < Units a -> 0 < Units b -> Units a + Units b + 1 <= max64 ->
  Sum (fst (Sum a b)) (Negate b) = (a, None).
Proof.
  intros Ha Hb Hc Hua Hub Hfit.
  pose proof (Ha' := Ha). pose proof (Hb' := Hb).
  apply IsValid_spec in Ha', Hb'.
  rewrite (Sum_exact a b) by
    (try assumption; unfold_ranges; Z.to_euclidean_division_equations; lia).
  cbn [fst].
  rewrite Negate_canonical by (try assumption; unfold_ranges; lia).
  rewrite Sum_exact; try apply ofAmount_valid.
  - rewrite !amount_ofAmount. cbn [ofAmount CurrencyCode].
    replace (amount a + amount b + - amount b) with (amount a) by lia.
    now rewrite <- valid_canonical.
  - cbn [ofAmount CurrencyCode]. exact Hc.
  - unfold ofAmount, amount; cbn [Units Nanos]; unfold_ranges.
    Z.to_euclidean_division_equations; lia.
  - unfold ofAmount, amount; cbn [Units Nanos]; unfold_ranges.
    Z.to_euclidean_division_equations; lia.
  - unfold ofAmount, amount; cbn [Units Nanos]; unfold_ranges.
    Z.to_euclidean_division_equations; lia.
Qed.

Lemma Sum_then_Negate_restores_witness :
  Sum (fst (Sum (mmc 2 200000000 "USD") (mmc 2 900000000 "USD")))
      (Negate (mmc 2 900000000 "USD"))
  = (mmc 2 200000000 "USD", None).
Proof.
  apply (Sum_then_Negate_restores
           (mmc 2 200000000 "USD") (mmc 2 900000000 "USD"));
    try reflexivity; cbn [Units mmc]; unfold max64; lia.
Defined.

(** The two loops differ by two steps: [DivideInt] with the count
    [n + 2] returns what [MultiplyInt] returns with the count [n]. *)
Theorem DivideInt_is_MultiplyInt_two_later (m : Money) (n : Z) :
  IsValid m = true ->
  Units m <> 0 \/ Nanos m = 0 ->
  1 <= n ->
  (Z.abs (Units m) + 1) * (n + 2) <= max64 ->
  DivideInt m (n + 2) = MultiplyInt m n
  /\ exists out, MultiplyInt m n = Returned out.
Proof.
  intros Hv Hnz Hn Hb.
  assert (Eu : Units m = Z.quot (amount m) nanosMod /\
               Nanos m = Z.rem (amount m) nanosMod).
  { rewrite (valid_canonical m Hv) at 1 3. split; reflexivity. }
  destruct Eu as (Eu & En). rewrite Eu, En in *.
  assert (EM : MultiplyInt m n
               = Returned (ofAmount (n * amount m) (CurrencyCode m))).
  { replace (MultiplyInt m n)
      with (MultiplyInt (ofAmount (amount m) (CurrencyCode m)) n)
      by (now rewrite <- valid_canonical).
    unfold MultiplyInt.
    replace (Z.to_nat n) with (S (Z.to_nat (n - 1))) by lia.
    replace (addLoop (S (Z.to_nat (n - 1)))
               (ofAmount (amount m) (CurrencyCode m)))
      with (addLoop (S (Z.to_nat (n - 1)))
              (ofAmount (1 * amount m) (CurrencyCode m)))
      by (now rewrite Z.mul_1_l).
    rewrite addLoop_canonical; [ | lia | assumption | ].
    - rewrite Z2Nat.id by lia. do 2 f_equal. ring.
    - rewrite Z2Nat.id by lia. unfold max64 in *. nia. }
  split; [ | eexists; exact EM ].
  rewrite EM.
  replace (DivideInt m (n + 2))
    with (DivideInt (ofAmount (amount m) (CurrencyCode m)) (n + 2))
    by (now rewrite <- valid_canonical).
  rewrite DivideInt_canonical by (assumption || lia).
  do 2 f_equal. ring.
Qed.

Lemma DivideInt_is_MultiplyInt_two_later_witness :
  DivideInt (mmc 2 900000000 "USD") (3 + 2) = MultiplyInt (mmc 2 900000000 "USD") 3
  /\ exists out, MultiplyInt (mmc 2 900000000 "USD") 3 = Returned out.
Proof.
  apply (DivideInt_is_MultiplyInt_two_later (mmc 2 900000000 "USD") 3).
  - reflexivity.
  - left. discriminate.
  - lia.
  - cbn [Units mmc]. unfold max64. lia.
Defined.

(** * The rendered string *)

Lemma append_cancel_l (a b c : string) : a ++ b = a ++ c -> b = c.
Proof.
  induction a as [ | x a IH ]; cbn [append]; intros E;
    [ exact E | injection E as E; auto ].
Qed.

Lemma length_append (a b : string) :
  String.length (a ++ b) = (String.length a + String.length b)%nat.
Proof. induction a as [ | x a IH ]; cbn; [ | rewrite IH ]; reflexivity. Qed.

(** No money value renders as units, dot and fraction text: the output
    always carries the fraction inside [%!d(string=...)]. *)
Theorem ToStringDollars_always_wrapped (l : Money) :
  ToStringDollars l
  = Fmt.Itoa (Units l) ++ "." ++ "%!d(string=" ++ fractionText (Nanos l) ++ ")"
  /\ ToStringDollars l
     <> Fmt.Itoa (Units l) ++ "." ++ fractionText (Nanos l).
Proof.
  split; [ apply ToStringDollars_shape | ].
  rewrite ToStringDollars_shape. intros E.
  apply append_cancel_l in E.
  apply (f_equal String.length) in E.
  cbn [append String.length] in E.
  rewrite length_append in E. cbn [String.length] in E. lia.
Qed.

(** * Equality and the represented amount *)

(** On valid values [AreEquals] compares the represented amounts and the
    currency codes: it holds exactly when both agree. *)
Theorem AreEquals_valid_compares_amounts (l r : Money) :
  IsValid l = true -> IsValid r = true ->
  (AreEquals l r = true
   <-> amount l = amount r /\ CurrencyCode l = CurrencyCode r).
Proof.
  intros Hl Hr. rewrite AreEquals_iff. split.
  - intros ->. split; reflexivity.
  - intros (Ev & Ec).
    rewrite (valid_canonical l Hl), (valid_canonical r Hr), Ev, Ec.
    reflexivity.
Qed.

Lemma AreEquals_valid_compares_amounts_witness :
  AreEquals (mmc 2 500000000 "USD") (ofAmount 2500000000 "USD") = true
  <-> amount (mmc 2 500000000 "USD") = amount (ofAmount 2500000000 "USD")
      /\ CurrencyCode (mmc 2 500000000 "USD")
         = CurrencyCode (ofAmount 2500000000 "USD").
Proof.
  apply (AreEquals_valid_compares_amounts
           (mmc 2 500000000 "USD") (ofAmount 2500000000 "USD"));
    reflexivity.
Defined.

(** Validity is needed: an invalid value can represent the same amount as
    a valid one with other fields. *)
Example AreEquals_invalid_same_amount :
  amount (mm 1 (-1)) = amount (mm 0 999999999)
  /\ AreEquals (mm 1 (-1)) (mm 0 999999999) = false.
Proof. vm_compute. split; reflexivity. Qed.
